(** * Inventory REST API: the Item validation and persistence contract

    A shallow embedding of [apps/api/router.js] (the Express router with its
    [validateItem] middleware and four route handlers) and of the Mongoose
    model [models/Item.js] (the [itemSchema]), together with the parts of
    Express, express-validator, validator.js, JavaScript and Mongoose that
    this code calls.

    Conventions of the embedding.
    - A request body is a flat JSON object: a finite map from keys to JSON
      scalars (null, booleans, numbers, strings).  Nested arrays and objects
      are not represented.
    - A JavaScript string is a [string] whose characters are read as code
      units U+0000 .. U+00FF.
    - A JSON number is an integer literal, [VNum z]; the Number it denotes is
      the double nearest to [z] ([toDouble]), which may be an infinity.
      Literals with a fraction or an exponent are not represented.  Numbers
      are rounded to the nearest double, ties to the even mantissa, and
      printed with the fewest digits that read back as the same double;
      negative zero is not told from zero.
    - A stored document is a finite map from field names to BSON values,
      Mongoose's version key [__v] included.  A collection is indexed by the
      [_id] of its documents.
    - An ObjectId is cast from 24 hexadecimal digits.
    - In the body of an update, a key that starts with a dollar sign is read
      as an update operator, and the keys [_id], [__v], [createdAt] and
      [updatedAt] are Mongoose's own paths; both are modelled.  A key with a
      dot in it addresses a field of a nested document, and a key such as
      [constructor] or [hasOwnProperty] shadows a property that every
      JavaScript object inherits; neither is represented, and statements
      about updates that would depend on such a key assume there is none
      ([ordinaryKeys]; [plainUpdate] asks for plain field names).
    - The environment of a request supplies the clock reading, the ObjectId
      the driver generates for a new document and whether the database
      answers. *)

From Stdlib Require Import ZArith String Ascii List Bool Lia DecimalString DecimalZ.
From stdpp Require Import base option list strings gmap fin_maps.

Local Open Scope string_scope.
Local Open Scope Z_scope.

(* ===================================================================== *)
(** ** JavaScript values and the string functions of validator.js *)
(* ===================================================================== *)

Module JS.

(** JSON scalars as they arrive in [req.body]. *)
Inductive value : Type :=
| VNull
| VBool (b : bool)
| VNum (z : Z)
| VStr (s : string).

Definition isEmpty (s : string) : bool :=
  match s with EmptyString => true | String _ _ => false end.

(** The class [\s] of JavaScript regular expressions, within U+0000..U+00FF:
    TAB, LF, VT, FF, CR, SPACE and NO-BREAK SPACE.  The same characters are
    the white space that [Number] strips from a string. *)
Definition isSpace (c : ascii) : bool :=
  let n := N_of_ascii c in
  ((9 <=? n) && (n <=? 13) || (n =? 32) || (n =? 160))%N.

(** [ltrim]: [str.replace(/^\s+/g, '')]. *)
Fixpoint ltrim (s : string) : string :=
  match s with
  | EmptyString => EmptyString
  | String c r => if isSpace c then ltrim r else s
  end.

(** [rtrim]: drops the maximal suffix of whitespace. *)
Fixpoint rtrim (s : string) : string :=
  match s with
  | EmptyString => EmptyString
  | String c r =>
      let r' := rtrim r in
      if isSpace c && isEmpty r' then EmptyString else String c r'
  end.

(** validator.js [trim(str)] is [rtrim(ltrim(str))]. *)
Definition trim (s : string) : string := rtrim (ltrim s).

(** validator.js [escape]: the ampersand, the double and the single quote,
    the angle brackets, the slash, the backslash and the backquote are
    replaced by their HTML entities, at every occurrence. *)
Definition escapeChar (c : ascii) : string :=
  if Ascii.eqb c "&" then "&amp;"
  else if Ascii.eqb c "034" then "&quot;"
  else if Ascii.eqb c "'" then "&#x27;"
  else if Ascii.eqb c "<" then "&lt;"
  else if Ascii.eqb c ">" then "&gt;"
  else if Ascii.eqb c "/" then "&#x2F;"
  else if Ascii.eqb c "092" then "&#x5C;"
  else if Ascii.eqb c "`" then "&#96;"
  else String c EmptyString.

Fixpoint escape (s : string) : string :=
  match s with
  | EmptyString => EmptyString
  | String c r => escapeChar c +:+ escape r
  end.

(** *** Numbers *)

(** A Number other than NaN: a double with an integer value, a double
    [m / 2^k] with [m] odd, or an infinity. *)
Inductive number : Type :=
| Finite (z : Z)
| Dyadic (m : Z) (k : positive)
| Infinite (negative : bool).

Definition negate (n : number) : number :=
  match n with
  | Finite z => Finite (- z)
  | Dyadic m k => Dyadic (- m) k
  | Infinite negative => Infinite (negb negative)
  end.

(** [a <= b] on numbers. *)
Definition leNumber (a b : number) : bool :=
  match a with
  | Infinite negative =>
      negative || match b with Infinite false => true | _ => false end
  | Finite x =>
      match b with
      | Finite y => x <=? y
      | Dyadic m k => x * 2 ^ Z.pos k <=? m
      | Infinite negative => negb negative
      end
  | Dyadic m k =>
      match b with
      | Finite y => m <=? y * 2 ^ Z.pos k
      | Dyadic m' k' => m * 2 ^ Z.pos k' <=? m' * 2 ^ Z.pos k
      | Infinite negative => negb negative
      end
  end.

(** The double nearest to a non-negative integer [n], ties to the even
    mantissa, or [None] when [n] rounds beyond the largest double. *)
Definition roundMagnitude (n : Z) : option Z :=
  if n <? 2 ^ 53 then Some n
  else
    let e := Z.log2 n - 52 in
    let q := n / 2 ^ e in
    let r := n mod 2 ^ e in
    let half := 2 ^ (e - 1) in
    let q' := if (half <? r) || ((r =? half) && Z.odd q) then q + 1 else q in
    let m := q' * 2 ^ e in
    if m <? 2 ^ 1024 then Some m else None.

(** The Number that an integer literal denotes. *)
Definition toDouble (z : Z) : number :=
  match roundMagnitude (Z.abs z) with
  | Some m => Finite (Z.sgn z * m)
  | None => Infinite (z <? 0)
  end.

(** The double [m * 2^e] as a number, for [m >= 0]. *)
Definition ofBinary (m e : Z) : number :=
  if 0 <=? e then
    let v := m * 2 ^ e in
    if v <? 2 ^ 1024 then Finite v else Infinite false
  else
    let g := Z.gcd m (2 ^ (- e)) in
    match 2 ^ (- e) / g with
    | Z.pos d => match Z.log2 (Z.pos d) with
                 | Z.pos k => Dyadic (m / g) k
                 | _ => Finite (m / g)
                 end
    | _ => Finite 0
    end.

(** The double nearest to [p / q], for [p >= 0] and [q > 0]: a mantissa of
    53 bits, or of fewer below the smallest normal double, rounded to
    nearest with ties to even. *)
Definition roundRatio (p q : Z) : number :=
  if p =? 0 then Finite 0
  else
    let l := Z.log2 p - Z.log2 q in
    let l := if p * 2 ^ Z.max 0 (- l) <? q * 2 ^ Z.max 0 l then l - 1 else l in
    let e := Z.max (l - 52) (- 1074) in
    let num := p * 2 ^ Z.max 0 (- e) in
    let den := q * 2 ^ Z.max 0 e in
    let m := num / den in
    let r := num mod den in
    let m' := if (den <? 2 * r) || ((2 * r =? den) && Z.odd m)
              then m + 1 else m in
    ofBinary m' e.

(** *** Numbers from strings *)

(** The strings accepted by validator.js's integer pattern
    [/^[-+]?[0-9]+$/], with the integer each one denotes. *)
Definition numericValue (str : string) : option Z :=
  let digitsValue (r : string) : option Z :=
    if isEmpty r then None
    else Z.of_uint <$> NilEmpty.uint_of_string r in
  match str with
  | String c r =>
      if Ascii.eqb c "-" then Z.opp <$> digitsValue r
      else if Ascii.eqb c "+" then digitsValue r
      else digitsValue str
  | EmptyString => None
  end.

(** The part of [s] before the first character that satisfies [p], and the
    part after it, if there is one. *)
Fixpoint splitOn (p : ascii -> bool) (s : string) : string * option string :=
  match s with
  | EmptyString => (EmptyString, None)
  | String c r =>
      if p c then (EmptyString, Some r)
      else let '(before, after) := splitOn p r in (String c before, after)
  end.

(** The digit that a character is in the given base, up to 16. *)
Definition digitOf (base : N) (c : ascii) : option N :=
  let n := N_of_ascii c in
  let d := if ((48 <=? n) && (n <=? 57))%N then Some (n - 48)%N
           else if ((97 <=? n) && (n <=? 102))%N then Some (n - 87)%N
           else if ((65 <=? n) && (n <=? 70))%N then Some (n - 55)%N
           else None in
  match d with
  | Some x => if (x <? base)%N then Some x else None
  | None => None
  end.

Fixpoint radixValue (base : N) (s : string) (acc : N) : option N :=
  match s with
  | EmptyString => Some acc
  | String c r =>
      match digitOf base c with
      | Some d => radixValue base r (base * acc + d)%N
      | None => None
      end
  end.

(** A literal [0x..], [0o..] or [0b..], in either case of the letter. *)
Definition radixLiteral (s : string) : option Z :=
  match s with
  | String "0" (String c r) =>
      let base := if Ascii.eqb c "x" || Ascii.eqb c "X" then Some 16%N
                  else if Ascii.eqb c "o" || Ascii.eqb c "O" then Some 8%N
                  else if Ascii.eqb c "b" || Ascii.eqb c "B" then Some 2%N
                  else None in
      match base with
      | Some n => if isEmpty r then None
                  else Z.of_N <$> radixValue n r 0%N
      | None => None
      end
  | _ => None
  end.

(** An unsigned decimal literal: digits with an optional fraction and an
    optional exponent, a digit being required before or after the point.
    The result [(n, k)] stands for [n * 10^k]. *)
Definition decimalLiteral (s : string) : option (Z * Z) :=
  let '(mantissa, exponent) :=
    splitOn (fun c => Ascii.eqb c "e" || Ascii.eqb c "E") s in
  let '(whole, point) := splitOn (fun c => Ascii.eqb c ".") mantissa in
  let fraction := default EmptyString point in
  if isEmpty whole && isEmpty fraction then None
  else
    match NilEmpty.uint_of_string (whole +:+ fraction),
          match exponent with
          | Some x => numericValue x
          | None => Some 0
          end with
    | Some digits, Some x =>
        Some (Z.of_uint digits, x - Z.of_nat (String.length fraction))
    | _, _ => None
    end.

(** [Number(str)]: white space is stripped; the empty string is 0; then an
    integer, a literal in base 16, 8 or 2, a signed [Infinity] or a signed
    decimal literal.  [None] stands for NaN. *)
Definition stringToNumber (str : string) : option number :=
  let s := trim str in
  if isEmpty s then Some (Finite 0)
  else
    match numericValue s with
    | Some z => Some (toDouble z)
    | None =>
        match radixLiteral s with
        | Some z => Some (toDouble z)
        | None =>
            let '(negative, unsigned) :=
              match s with
              | String c r =>
                  if Ascii.eqb c "-" then (true, r)
                  else if Ascii.eqb c "+" then (false, r)
                  else (false, s)
              | EmptyString => (false, s)
              end in
            let signed (n : number) := if negative then negate n else n in
            if String.eqb unsigned "Infinity"
            then Some (signed (Infinite false))
            else
              match decimalLiteral unsigned with
              | Some (n, k) =>
                  Some (signed (if 0 <=? k then toDouble (n * 10 ^ k)
                                else roundRatio n (10 ^ (- k))))
              | None => None
              end
        end
    end.

(** *** Numbers to strings *)

(** Decimal digits of a natural number. *)
Definition decimalOfN (n : N) : string := NilZero.string_of_uint (N.to_uint n).

Fixpoint stripTrailingZeros (s : string) : string :=
  match s with
  | EmptyString => EmptyString
  | String c r =>
      let r' := stripTrailingZeros r in
      if Ascii.eqb c "0" && isEmpty r' then EmptyString else String c r'
  end.

(** Scientific notation of a digit string [d1 d2 ... dn]:
    [d1.d2...e+(n-1)], the fraction without its trailing zeros. *)
Definition exponentForm (digits : string) : string :=
  match digits with
  | EmptyString => EmptyString
  | String d rest =>
      let frac := stripTrailingZeros rest in
      String d (if isEmpty frac then EmptyString else "." +:+ frac)
        +:+ "e+" +:+ decimalOfN (N.of_nat (String.length rest))
  end.

(** Whether [c] lies in the interval of the reals that round to a double,
    its ends [lo2 / 2] and [hi2 / 2] included when the mantissa is even. *)
Definition inInterval (inclusive : bool) (lo2 hi2 c : Z) : bool :=
  if inclusive then (lo2 <=? 2 * c) && (2 * c <=? hi2)
  else (lo2 <? 2 * c) && (2 * c <? hi2).

(** The multiple of [u] in the interval that is closest to [m], the even
    multiple when two are as close. *)
Definition closestMultiple (inside : Z -> bool) (m u : Z) : option Z :=
  let c1 := (m / u) * u in
  let c2 := c1 + u in
  match inside c1, inside c2 with
  | true, true =>
      Some (if m - c1 <? c2 - m then c1
            else if c2 - m <? m - c1 then c2
            else if Z.even (c1 / u) then c1 else c2)
  | true, false => Some c1
  | false, true => Some c2
  | false, false => None
  end.

(** The integer with the fewest significant digits in the interval: the
    closest multiple of the largest power of ten that has one there,
    looking from [10^p] downwards. *)
Fixpoint fewestDigits (inside : Z -> bool) (m : Z) (p : nat) : Z :=
  match closestMultiple inside m (10 ^ Z.of_nat p) with
  | Some c => c
  | None => match p with
            | O => m
            | S p' => fewestDigits inside m p'
            end
  end.

(** For a double [m >= 2^53]: the integer whose digits
    [Number.prototype.toString] prints, the shortest decimal that reads
    back as [m].  The reals that round to [m] reach half a unit of the last
    place above [m], and as far below it, or half as far when [m] is a
    power of two. *)
Definition shortestDecimal (m : Z) : Z :=
  let e := Z.log2 m - 52 in
  let q := m / 2 ^ e in
  let below2 := if q =? 2 ^ 52 then 2 ^ (e - 1) else 2 ^ e in
  let inside := inInterval (Z.even q) (2 * m - below2) (2 * m + 2 ^ e) in
  fewestDigits inside m (String.length (decimalOfN (Z.to_N m))).

(** The digits of a non-negative double with an integer value: below 2^53
    the integer itself; plain digits below 10^21 and scientific notation
    from there on. *)
Definition printMagnitude (m : Z) : string :=
  let c := if m <? 2 ^ 53 then m else shortestDecimal m in
  let digits := decimalOfN (Z.to_N c) in
  if c <? 10 ^ 21 then digits else exponentForm digits.

(** [String(n)] for the Number of the integer literal [z]. *)
Definition numberToString (z : Z) : string :=
  match roundMagnitude (Z.abs z) with
  | Some m => if z <? 0 then String "-" (printMagnitude m)
              else printMagnitude m
  | None => if z <? 0 then "-Infinity" else "Infinity"
  end.

(** express-validator's [toString(value)], which every standard validator
    and sanitizer applies to the field first: [undefined] and [null] become
    the empty string, everything else goes through [String(value)]. *)
Definition toString (v : option value) : string :=
  match v with
  | None => EmptyString
  | Some VNull => EmptyString
  | Some (VBool true) => "true"
  | Some (VBool false) => "false"
  | Some (VNum z) => numberToString z
  | Some (VStr s) => s
  end.

(** Whether a scalar counts as true in a condition. *)
Definition truthy (v : value) : bool :=
  match v with
  | VNull => false
  | VBool b => b
  | VNum z => negb (z =? 0)
  | VStr s => negb (isEmpty s)
  end.

(** validator.js [isInt(str, { min })]: the pattern matches and
    [str >= min] holds, the string converted to a Number. *)
Definition isInt (min : Z) (str : string) : bool :=
  match numericValue str with
  | Some z => leNumber (Finite min) (toDouble z)
  | None => false
  end.

End JS.

Export JS.

(* ===================================================================== *)
(** ** express-validator: validation chains over [req.body] *)
(* ===================================================================== *)

Abbreviation body := (gmap string value).

Module Validator.

(** One entry of [errors.array()]. *)
Record verror : Type := { vpath : string; vmsg : string }.

(** The items of a chain: a validator with its message, or a sanitizer. *)
Inductive item : Type :=
| Validate (test : option value -> bool) (message : string)
| Sanitize (f : string -> string).

(** [body(field)...]: the field, whether [.optional()] was called, and the
    items in the order they were chained. *)
Record chain : Type :=
  { field : string; isOptional : bool; stack : list item }.

(** Standard validators test [toString(value)]; [isString] is the custom
    test [typeof value === 'string']. *)
Definition notEmpty (message : string) : item :=
  Validate (fun v => negb (isEmpty (toString v))) message.

Definition isIntMin (min : Z) (message : string) : item :=
  Validate (fun v => isInt min (toString v)) message.

Definition isString : item :=
  Validate (fun v => match v with Some (VStr _) => true | _ => false end)
           "Invalid value".

Definition trim : item := Sanitize JS.trim.
Definition escape : item := Sanitize JS.escape.

(** Running the items in order on the current value of the field.  A failed
    validator records its error and the run goes on (no [.bail()]); a
    sanitizer replaces the value by a string. *)
Fixpoint runStack (f : string) (items : list item) (cur : option value)
  : list verror * option value :=
  match items with
  | [] => ([], cur)
  | Validate test message :: rest =>
      let '(errs, out) := runStack f rest cur in
      (((if test cur then [] else [ {| vpath := f; vmsg := message |} ])
          ++ errs)%list, out)
  | Sanitize g :: rest => runStack f rest (Some (VStr (g (toString cur))))
  end.

(** A chain as a middleware: an optional chain is skipped when the field is
    [undefined]; otherwise the items run and the sanitized value is written
    back into [req.body]. *)
Definition runChain (c : chain) (b : body) : list verror * body :=
  match b !! field c, isOptional c with
  | None, true => ([], b)
  | cur, _ =>
      let '(errs, out) := runStack (field c) (stack c) cur in
      (errs, match out with Some v => <[field c := v]> b | None => b end)
  end.

(** The chains of a middleware array run one after the other on the same
    request. *)
Fixpoint runChains (cs : list chain) (b : body) : list verror * body :=
  match cs with
  | [] => ([], b)
  | c :: rest =>
      let '(errs, b1) := runChain c b in
      let '(errs', b2) := runChains rest b1 in
      ((errs ++ errs')%list, b2)
  end.

End Validator.

Export Validator.

(* ===================================================================== *)
(** ** Mongoose: schemas, casting, validators and the model operations *)
(* ===================================================================== *)

Module Mongoose.

(** Stored values. *)
Inductive bson : Type :=
| BNull
| BBool (b : bool)
| BNum (n : number)
| BStr (s : string)
| BObjectId (n : N)
| BDate (t : Z).

Abbreviation document := (gmap string bson).

(** A collection, indexed by [_id]. *)
Abbreviation collection := (gmap N (gmap string bson)).

Inductive schemaType : Type := TString | TNumber | TObjectId.

(** The options of one schema path. *)
Record schemaPath : Type :=
  { type : schemaType;
    required : bool;
    maxLength : option nat;
    min : option Z }.

(** A schema: its declared paths and the two options the model sets. *)
Record schema : Type :=
  { paths : list (string * schemaPath);
    timestamps : bool;
    strict : bool }.

(** The name of the version key, which no option of the model changes. *)
Definition versionKey : string := "__v".

(** What an awaited model operation can throw: a failed validation, a failed
    cast, an insert on an [_id] in use, an update document that cannot be
    read, a change to an immutable field, or the database not answering. *)
Inductive error : Type :=
| ValidationError (failed : list string)
| CastError (path : string)
| DuplicateKeyError
| UpdateError (key : string)
| ImmutableError (path : string)
| StorageError.

(** What an awaited model operation does: resolve to a value or throw. *)
Inductive outcome (A : Type) : Type :=
| Resolved (a : A)
| Rejected (e : error).
Arguments Resolved {A} a.
Arguments Rejected {A} e.

(** The environment of one request: the clock, the ObjectId generated for a
    new document, and whether the database answers. *)
Record env : Type := { now : Z; newId : N; dbUp : bool }.

Fixpoint pathOf (ps : list (string * schemaPath)) (k : string)
  : option schemaPath :=
  match ps with
  | [] => None
  | (k', p) :: rest => if String.eqb k' k then Some p else pathOf rest k
  end.

(** *** Casting *)

Definition hexDigit (c : ascii) : option N :=
  let n := N_of_ascii c in
  if ((48 <=? n) && (n <=? 57))%N then Some (n - 48)%N
  else if ((97 <=? n) && (n <=? 102))%N then Some (n - 87)%N
  else if ((65 <=? n) && (n <=? 70))%N then Some (n - 55)%N
  else None.

Fixpoint hexValue (s : string) (acc : N) : option N :=
  match s with
  | EmptyString => Some acc
  | String c r =>
      match hexDigit c with
      | Some d => hexValue r (16 * acc + d)%N
      | None => None
      end
  end.

(** A string casts to an ObjectId when it is made of 24 hexadecimal digits,
    in either case; any other string is a cast error. *)
Definition castObjectId (s : string) : option N :=
  if (String.length s =? 24)%nat then hexValue s 0%N else None.

(** [castString]: scalars are converted with their [toString]; [null] stays
    [null]. *)
Definition castString (v : value) : option bson :=
  match v with
  | VNull => Some BNull
  | VBool true => Some (BStr "true")
  | VBool false => Some (BStr "false")
  | VNum z => Some (BStr (numberToString z))
  | VStr s => Some (BStr s)
  end.

(** [castNumber]: [null] and the empty string become [null], a boolean or a
    string goes through [Number(val)], and a NaN is a cast error. *)
Definition castNumber (v : value) : option bson :=
  match v with
  | VNull => Some BNull
  | VBool b => Some (BNum (Finite (if b then 1 else 0)))
  | VNum z => Some (BNum (toDouble z))
  | VStr s => if isEmpty s then Some BNull else BNum <$> stringToNumber s
  end.

(** [castObjectId] of a scalar: [null] stays [null], anything else is
    converted from its [toString]. *)
Definition castId (v : value) : option bson :=
  match v with
  | VNull => Some BNull
  | _ => BObjectId <$> castObjectId (toString (Some v))
  end.

Definition castValue (t : schemaType) (v : value) : option bson :=
  match t with
  | TString => castString v
  | TNumber => castNumber v
  | TObjectId => castId v
  end.

(** The value kept for a key outside the schema when the schema is not
    strict. *)
Definition rawValue (v : value) : bson :=
  match v with
  | VNull => BNull
  | VBool b => BBool b
  | VNum z => BNum (toDouble z)
  | VStr s => BStr s
  end.

(** Casting an object against a list of paths, key by key: the value of a
    path is cast to its type ([None] marks a cast error); any other key is
    dropped in strict mode and kept as it is otherwise. *)
Definition castObject (ps : list (string * schemaPath)) (isStrict : bool)
    (obj : body) : gmap string (option bson) :=
  map_imap (fun k v =>
              match pathOf ps k with
              | Some p => Some (castValue (type p) v)
              | None => if isStrict then None else Some (Some (rawValue v))
              end) obj.

(** Casting the object given to [new Model(obj)], which holds fields of the
    document. *)
Definition castFields (sch : schema) (obj : body)
  : gmap string (option bson) :=
  castObject (paths sch) (strict sch) obj.

Definition castFailures (m : gmap string (option bson)) : list string :=
  (map_to_list (filter (fun kv => kv.2 = None) m)).*1.

Definition castSuccesses (m : gmap string (option bson)) : document :=
  omap id m.

(** *** Validators run by [save] *)

Definition checkRequired (t : schemaType) (v : option bson) : bool :=
  match t, v with
  | TString, Some (BStr s) => negb (isEmpty s)
  | TNumber, Some (BNum _) => true
  | TObjectId, Some (BObjectId _) => true
  | _, _ => false
  end.

Definition checkMaxLength (m : nat) (v : option bson) : bool :=
  match v with
  | Some (BStr s) => (String.length s <=? m)%nat
  | _ => true
  end.

Definition checkMin (m : Z) (v : option bson) : bool :=
  match v with
  | Some (BNum n) => leNumber (Finite m) n
  | _ => true
  end.

Definition validPath (p : schemaPath) (v : option bson) : bool :=
  (if required p then checkRequired (type p) v else true)
  && match maxLength p with Some m => checkMaxLength m v | None => true end
  && match min p with Some m => checkMin m v | None => true end.

(** The declared paths whose validators fail on the document. *)
Definition failedPaths (sch : schema) (d : document) : list string :=
  (filter (fun kp => validPath kp.2 (d !! kp.1) = false) (paths sch)).*1.

(** *** Documents and model operations *)

(** A document under construction: its [_id], its fields and the paths
    whose value could not be cast. *)
Record draft : Type :=
  { docId : N; fields : document; castErrors : list string }.

(** [new Model(obj)]: a generated [_id] and the cast fields of [obj]. *)
Definition newDocument (sch : schema) (e : env) (obj : body) : draft :=
  let cast := castFields sch obj in
  {| docId := newId e;
     fields := <["_id" := BObjectId (newId e)]> (castSuccesses cast);
     castErrors := castFailures cast |}.

Definition stampCreated (sch : schema) (e : env) (d : document) : document :=
  if timestamps sch
  then <["updatedAt" := BDate (now e)]> (<["createdAt" := BDate (now e)]> d)
  else d.

Definition stampUpdated (sch : schema) (e : env) (d : document) : document :=
  if timestamps sch then <["updatedAt" := BDate (now e)]> d else d.

(** A document is inserted at version 0. *)
Definition stampVersion (d : document) : document :=
  <[versionKey := BNum (Finite 0)]> d.

(** [doc.save()] of a new document: validation, then the timestamps and the
    version key, then the insert; the insert fails when the database does
    not answer or the [_id] is taken. *)
Definition save (sch : schema) (e : env) (d : draft) (st : collection)
  : outcome (collection * document) :=
  match (castErrors d ++ failedPaths sch (fields d))%list with
  | (_ :: _) as failed => Rejected (ValidationError failed)
  | [] =>
      if negb (dbUp e) then Rejected StorageError
      else match st !! docId d with
           | Some _ => Rejected DuplicateKeyError
           | None =>
               let doc := stampVersion (stampCreated sch e (fields d)) in
               Resolved (<[docId d := doc]> st, doc)
           end
  end.

(** *** Updates *)

(** A key of an update that starts with a dollar sign is read as an update
    operator, any other key as a field to set. *)
Definition isOperator (k : string) : bool :=
  match k with
  | String c _ => Ascii.eqb c "$"
  | EmptyString => false
  end.

Definition operators (update : body) : body :=
  filter (fun kv => isOperator kv.1 = true) update.

Definition plainFields (update : body) : body :=
  filter (fun kv => isOperator kv.1 = false) update.

(** The hook that the [timestamps] option runs before an update.  It takes
    [update.$set || {}] and [update.$setOnInsert || {}] as the objects to
    write [updatedAt] and [createdAt] into, which throws on a scalar that
    counts as true and replaces any other scalar; and it removes the two
    timestamps from the fields to set ([createdAt] is immutable,
    [updatedAt] is set by [stampUpdated]). *)
Definition applyTimestampsToUpdate (sch : schema) (update : body)
  : outcome body :=
  if timestamps sch then
    match truthy <$> update !! "$set", truthy <$> update !! "$setOnInsert" with
    | Some true, _ => Rejected (UpdateError "$set")
    | _, Some true => Rejected (UpdateError "$setOnInsert")
    | _, _ =>
        Resolved (delete "$set" (delete "$setOnInsert"
                    (delete "updatedAt" (delete "createdAt" update))))
    end
  else Resolved update.

(** The paths an update is cast against: the declared ones, [_id] and the
    version key. *)
Definition updatePaths (sch : schema) : list (string * schemaPath) :=
  (paths sch
   ++ [ ("_id",
         {| type := TObjectId; required := false;
            maxLength := None; min := None |});
        (versionKey,
         {| type := TNumber; required := false;
            maxLength := None; min := None |}) ])%list.

(** [castUpdate]: the fields to set are gathered under [$set], which takes
    the place of a [$set] that does not count as true; an operator whose
    value is not an object is an error, and so is every operator here, the
    values being scalars; then each field is cast, and every cast must
    succeed. *)
Definition castUpdate (sch : schema) (update : body) : outcome document :=
  let replaced (kv : string * value) : bool :=
    String.eqb kv.1 "$set" && negb (truthy kv.2)
    && negb (bool_decide (plainFields update = ∅)) in
  match filter (fun kv => replaced kv = false)
               (map_to_list (operators update)) with
  | (k, _) :: _ => Rejected (UpdateError k)
  | [] =>
      let cast := castObject (updatePaths sch) (strict sch)
                    (plainFields update) in
      match castFailures cast with
      | k :: _ => Rejected (CastError k)
      | [] => Resolved (castSuccesses cast)
      end
  end.

(** Whether setting [_id] to [x] leaves the [_id] of the document [oid] as
    it is. *)
Definition sameId (x : bson) (oid : N) : bool :=
  match x with BObjectId n => (n =? oid)%N | _ => false end.

(** [Model.findByIdAndUpdate(id, update, { new: true })]: the hook of the
    timestamps runs, the filter and the update are cast, the fields of the
    update are set on the matching document together with [updatedAt], and
    the updated document is returned, or [null] when no document matches.
    The database refuses an update that would change the [_id] of the
    document.  No schema validator runs (no [runValidators] option). *)
Definition findByIdAndUpdate (sch : schema) (e : env) (id : string)
    (update : body) (st : collection)
  : outcome (collection * option document) :=
  match applyTimestampsToUpdate sch update with
  | Rejected err => Rejected err
  | Resolved update' =>
      match castObjectId id with
      | None => Rejected (CastError "_id")
      | Some oid =>
          match castUpdate sch update' with
          | Rejected err => Rejected err
          | Resolved set =>
              if negb (dbUp e) then Rejected StorageError
              else match st !! oid with
                   | None => Resolved (st, None)
                   | Some old =>
                       if match set !! "_id" with
                          | Some x => sameId x oid
                          | None => true
                          end
                       then
                         let doc :=
                           stampUpdated sch e (delete "_id" set ∪ old) in
                         Resolved (<[oid := doc]> st, Some doc)
                       else Rejected (ImmutableError "_id")
                   end
          end
      end
  end.

(** [Model.findByIdAndDelete(id)]: the removed document, or [null]. *)
Definition findByIdAndDelete (e : env) (id : string) (st : collection)
  : outcome (collection * option document) :=
  match castObjectId id with
  | None => Rejected (CastError "_id")
  | Some oid =>
      if negb (dbUp e) then Rejected StorageError
      else match st !! oid with
           | None => Resolved (st, None)
           | Some old => Resolved (delete oid st, Some old)
           end
  end.

Definition createdAtOf (d : document) : option Z :=
  match d !! "createdAt" with Some (BDate t) => Some t | _ => None end.

(** [a] comes no later than [b] in descending order of [createdAt]; a
    missing date sorts as the smallest value. *)
Definition newerOrEqual (a b : document) : bool :=
  match createdAtOf a, createdAtOf b with
  | Some ta, Some tb => tb <=? ta
  | Some _, None => true
  | None, Some _ => false
  | None, None => true
  end.

Fixpoint insertSorted (d : document) (l : list document) : list document :=
  match l with
  | [] => [d]
  | x :: r => if newerOrEqual d x then d :: l else x :: insertSorted d r
  end.

(** [Model.find().sort({ createdAt: -1 })]. *)
Definition findSorted (e : env) (st : collection) : outcome (list document) :=
  if negb (dbUp e) then Rejected StorageError
  else Resolved (foldr insertSorted [] (map_to_list st).*2).

End Mongoose.

Export Mongoose.

(* ===================================================================== *)
(** ** The Item model ([models/Item.js]) *)
(* ===================================================================== *)

Definition itemSchema : schema :=
  {| paths :=
       [ ("name",
          {| type := TString; required := true;
             maxLength := Some 100%nat; min := None |});
         ("quantity",
          {| type := TNumber; required := true;
             maxLength := None; min := Some 0 |});
         ("location",
          {| type := TString; required := false;
             maxLength := None; min := None |});
         ("description",
          {| type := TString; required := false;
             maxLength := None; min := None |}) ];
     timestamps := true;
     strict := true |}.

(* ===================================================================== *)
(** ** The router ([router.js]) *)
(* ===================================================================== *)

(** The bodies the handlers send. *)
Inductive reply : Type :=
| SentItem (d : document)
| SentItems (l : list document)
| SentMessage (m : string)
| SentError (e : error)
| SentValidation (errs : list verror)
| NoRoute.

Record response : Type := { status : Z; sent : reply }.

(** The chains of [validateItem]. *)
Definition validateItemChains : list chain :=
  [ {| field := "name"; isOptional := false;
       stack := [ notEmpty "Name is required"; trim; escape ] |};
    {| field := "quantity"; isOptional := false;
       stack := [ isIntMin 0 "Quantity must be a non-negative integer" ] |};
    {| field := "location"; isOptional := true;
       stack := [ isString; trim; escape ] |};
    {| field := "description"; isOptional := true;
       stack := [ isString; trim; escape ] |} ].

(** [validateItem]: the four chains, then the closing middleware that
    answers 400 with the errors, or calls [next()] on the sanitized body. *)
Definition validateItem (b : body) : response + body :=
  let '(errors, b') := runChains validateItemChains b in
  match errors with
  | [] => inr b'
  | _ :: _ => inl {| status := 400; sent := SentValidation errors |}
  end.

(** [router.get('/')]. *)
Definition getItems (e : env) (st : collection) : collection * response :=
  match findSorted e st with
  | Resolved items => (st, {| status := 200; sent := SentItems items |})
  | Rejected err => (st, {| status := 500; sent := SentError err |})
  end.

(** [const { name, quantity, description } = req.body] followed by
    [{ name, quantity, description }]: the three keys, where defined. *)
Definition pickedKeys : list string := [ "name"; "quantity"; "description" ].

Definition pick (keys : list string) (b : body) : body :=
  filter (fun kv => kv.1 ∈ keys) b.

(** The handler of [router.post('/')], after [validateItem]. *)
Definition postItem (e : env) (b : body) (st : collection)
  : collection * response :=
  let item := newDocument itemSchema e (pick pickedKeys b) in
  match save itemSchema e item st with
  | Resolved (st', newItem) =>
      (st', {| status := 201; sent := SentItem newItem |})
  | Rejected err => (st, {| status := 400; sent := SentError err |})
  end.

(** The handler of [router.put('/:id')], after [validateItem]. *)
Definition putItem (e : env) (id : string) (b : body) (st : collection)
  : collection * response :=
  match findByIdAndUpdate itemSchema e id b st with
  | Resolved (st', Some updated) =>
      (st', {| status := 200; sent := SentItem updated |})
  | Resolved (st', None) =>
      (st', {| status := 404; sent := SentMessage "Item not found" |})
  | Rejected err => (st, {| status := 400; sent := SentError err |})
  end.

(** The handler of [router.delete('/:id')]. *)
Definition deleteItem (e : env) (id : string) (st : collection)
  : collection * response :=
  match findByIdAndDelete e id st with
  | Resolved (st', Some deleted) =>
      (st', {| status := 200; sent := SentMessage "Item deleted" |})
  | Resolved (st', None) =>
      (st', {| status := 404; sent := SentMessage "Item not found" |})
  | Rejected err => (st, {| status := 500; sent := SentError err |})
  end.

Inductive method : Type := GET | POST | PUT | DELETE.

(** A request below the mount point [/api/items]: the method, the segments
    of the remaining path (the pieces between its slashes, so that a
    trailing slash shows as a last empty segment) and the parsed JSON
    body. *)
Record request : Type :=
  { reqMethod : method; reqPath : list string; reqBody : body }.

(** With [validateItem] mounted before a handler, the handler runs only
    when the middleware calls [next()]. *)
Definition withValidation (b : body) (st : collection)
    (handler : body -> collection -> collection * response)
  : collection * response :=
  match validateItem b with
  | inl rejected => (st, rejected)
  | inr b' => handler b' st
  end.

(** The two path patterns of the router.  Express matches without strict
    routing: ['/'] matches the empty path and a lone slash, ['/:id'] one
    non-empty segment with or without a slash after it. *)
Inductive route : Type :=
| Root
| Param (id : string)
| Unmatched.

Definition matchRoute (p : list string) : route :=
  match p with
  | [] => Root
  | [s] => if isEmpty s then Root else Param s
  | [s; t] => if negb (isEmpty s) && isEmpty t then Param s else Unmatched
  | _ => Unmatched
  end.

(** The router: the four registered routes.  A request that matches none
    falls through to Express's final handler, which answers 404. *)
Definition router (e : env) (req : request) (st : collection)
  : collection * response :=
  match reqMethod req, matchRoute (reqPath req) with
  | GET, Root => getItems e st
  | POST, Root => withValidation (reqBody req) st (postItem e)
  | PUT, Param id => withValidation (reqBody req) st (putItem e id)
  | DELETE, Param id => deleteItem e id st
  | _, _ => (st, {| status := 404; sent := NoRoute |})
  end.


(** *** What [validateItem] computes, in closed form *)

Definition optionalString (v : option value) : bool :=
  match v with None | Some (VStr _) => true | _ => false end.

(** The bodies on which no chain records an error. *)
Definition accepted (b : body) : bool :=
  negb (isEmpty (toString (b !! "name")))
  && isInt 0 (toString (b !! "quantity"))
  && optionalString (b !! "location")
  && optionalString (b !! "description").

(** The errors the four chains record, in order. *)
Definition validationErrors (b : body) : list verror :=
  ((if negb (isEmpty (toString (b !! "name"))) then []
    else [ {| vpath := "name"; vmsg := "Name is required" |} ])
   ++ (if isInt 0 (toString (b !! "quantity")) then []
       else [ {| vpath := "quantity";
                 vmsg := "Quantity must be a non-negative integer" |} ])
   ++ (if optionalString (b !! "location") then []
       else [ {| vpath := "location"; vmsg := "Invalid value" |} ])
   ++ (if optionalString (b !! "description") then []
       else [ {| vpath := "description"; vmsg := "Invalid value" |} ]))%list.

Definition sanitizeValue (v : option value) : value :=
  VStr (JS.escape (JS.trim (toString v))).

Definition sanitizeField (k : string) (b : body) : body :=
  match b !! k with
  | Some v => <[k := sanitizeValue (Some v)]> b
  | None => b
  end.

(** The body the handlers receive once every chain has run. *)
Definition sanitizedBody (b : body) : body :=
  sanitizeField "description"
    (sanitizeField "location"
       (<["name" := sanitizeValue (b !! "name")]> b)).

(** *** The documents the handlers write *)

Definition declaredNames : list string := (paths itemSchema).*1.

(** The document [postItem] saves for a sanitized body. *)
Definition created (e : env) (b' : body) : document :=
  stampVersion
    (stampCreated itemSchema e
       (fields (newDocument itemSchema e (pick pickedKeys b')))).

(** The update that reaches the cast for a sanitized body: the body without
    the two timestamps and without a [$set] or [$setOnInsert] that the hook
    replaced. *)
Definition hooked (b' : body) : body :=
  delete "$set" (delete "$setOnInsert"
    (delete "updatedAt" (delete "createdAt" b'))).

(** The fields [putItem] sets for a sanitized body, and the document that
    results from setting them on [old]. *)
Definition updateOf (b' : body) : document :=
  delete "_id"
    (castSuccesses
       (castObject (updatePaths itemSchema) (strict itemSchema)
          (plainFields (hooked b')))).

Definition updated (e : env) (b' : body) (old : document) : document :=
  stampUpdated itemSchema e (updateOf b' ∪ old).

(** *** Kinds of keys in the body of an update *)

(** The paths of a document that Mongoose manages itself. *)
Definition managedKeys : list string :=
  [ "_id"; "__v"; "createdAt"; "updatedAt" ].

Fixpoint hasDot (k : string) : bool :=
  match k with
  | EmptyString => false
  | String c r => Ascii.eqb c "." || hasDot r
  end.

(** A plain key: not a path that Mongoose manages, not an operator and not
    a dotted path. *)
Definition plainKey (k : string) : bool :=
  negb (bool_decide (k ∈ managedKeys)) && negb (isOperator k)
  && negb (hasDot k).

Definition plainUpdate (b : body) : bool :=
  forallb (fun kv => plainKey kv.1) (map_to_list b).




(** The bodies that Mongoose can read as an update of an Item: an operator
    is a [$set] or a [$setOnInsert] that the hook of the timestamps
    replaces, and the values of [_id] and [__v] cast to their types. *)
Definition readableKey (k : string) (v : value) : bool :=
  if isOperator k
  then (String.eqb k "$set" || String.eqb k "$setOnInsert") && negb (truthy v)
  else if String.eqb k "_id"
  then match castId v with Some _ => true | None => false end
  else if String.eqb k "__v"
  then match castNumber v with Some _ => true | None => false end
  else true.

Definition readableUpdate (b : body) : bool :=
  forallb (fun kv => readableKey kv.1 kv.2) (map_to_list b).

(** *** Predicates on stored collections *)




(** A number that is not negative: a non-negative integer, or the positive
    infinity. *)
Definition nonNegative (n : number) : Prop :=
  (exists z, n = Finite z /\ 0 <= z) \/ n = Infinite false.


(** *** Requests *)

Definition getReq (p : list string) : request :=
  {| reqMethod := GET; reqPath := p; reqBody := ∅ |}.

Definition postReq (b : body) : request :=
  {| reqMethod := POST; reqPath := []; reqBody := b |}.

Definition putReq (id : string) (b : body) : request :=
  {| reqMethod := PUT; reqPath := [id]; reqBody := b |}.

Definition deleteReq (id : string) : request :=
  {| reqMethod := DELETE; reqPath := [id]; reqBody := ∅ |}.


(** *** Sample data *)

Definition up (t : Z) (i : N) : env := {| now := t; newId := i; dbUp := true |}.
Definition down (t : Z) (i : N) : env :=
  {| now := t; newId := i; dbUp := false |}.

Definition sampleId : string := "000000000000000000000001".
Definition otherId : string := "000000000000000000000002".

Definition laptop : body :=
  {[ "name" := VStr "Laptop"; "quantity" := VNum 10;
     "location" := VStr "Warehouse A" ]}.

(** The collection after [POST /api/items] with [laptop]. *)
Definition oneItem : collection := (router (up 1000 1) (postReq laptop) ∅).1.

Fixpoint repeatChar (c : ascii) (n : nat) : string :=
  match n with
  | O => EmptyString
  | S m => String c (repeatChar c m)
  end.

(** The digits of 10^309, which no double holds. *)
Definition hugeDigits : string := String "1" (repeatChar "0" 309).

(** The body the web client sends to update the record of [oneItem]: the
    record it was given, with the edited fields. *)
Definition webUpdate : body :=
  {[ "_id" := VStr sampleId; "__v" := VNum 0;
     "name" := VStr "Laptop"; "quantity" := VNum 12;
     "location" := VStr "Warehouse B";
     "createdAt" := VStr "2024-01-01T00:00:00.000Z";
     "updatedAt" := VStr "2024-01-01T00:00:00.000Z" ]}.

(* ===================================================================== *)
(** ** Sample evaluations *)
(* ===================================================================== *)

Example trim_sample :
  JS.trim (String "009" " Warehouse A  ") = "Warehouse A".
Proof. reflexivity. Qed.

Example escape_sample : JS.escape "a&b<c>" = "a&amp;b&lt;c&gt;".
Proof. reflexivity. Qed.

Example toDouble_samples :
  toDouble 10 = Finite 10 /\ toDouble (-2) = Finite (-2) /\
  toDouble (2 ^ 53 + 1) = Finite (2 ^ 53) /\
  toDouble (2 ^ 53 + 3) = Finite (2 ^ 53 + 4) /\
  toDouble (10 ^ 21 - 1) = Finite (10 ^ 21) /\
  toDouble (2 ^ 1024 - 2 ^ 970 - 1) = Finite (2 ^ 1024 - 2 ^ 971) /\
  toDouble (2 ^ 1024 - 2 ^ 970) = Infinite false /\
  toDouble (- 10 ^ 400) = Infinite true.
Proof. repeat apply conj; vm_compute; reflexivity. Qed.

Example numberToString_samples :
  numberToString 10 = "10" /\ numberToString (-2) = "-2" /\
  numberToString 0 = "0" /\
  numberToString 9007199254740993 = "9007199254740992" /\
  numberToString (2 ^ 60) = "1152921504606847000" /\
  numberToString 123456789012345678901 = "123456789012345680000" /\
  numberToString (10 ^ 21 - 1) = "1e+21" /\
  numberToString (-(15 * 10 ^ 21)) = "-1.5e+22" /\
  numberToString (2 ^ 70) = "1.1805916207174113e+21" /\
  numberToString (10 ^ 400) = "Infinity".
Proof. repeat apply conj; vm_compute; reflexivity. Qed.

Example stringToNumber_samples :
  stringToNumber "42" = Some (Finite 42) /\
  stringToNumber " -7 " = Some (Finite (-7)) /\
  stringToNumber "   " = Some (Finite 0) /\
  stringToNumber "1.5" = Some (Dyadic 3 1) /\
  stringToNumber "2.5e1" = Some (Finite 25) /\
  stringToNumber "0x1F" = Some (Finite 31) /\
  stringToNumber "-Infinity" = Some (Infinite true) /\
  stringToNumber "0.1" = Some (Dyadic 3602879701896397 55) /\
  stringToNumber "5e-324" = Some (Dyadic 1 1074) /\
  stringToNumber "2e-324" = Some (Finite 0) /\
  stringToNumber hugeDigits = Some (Infinite false) /\
  stringToNumber "12abc" = None /\ stringToNumber "1e" = None /\
  stringToNumber "." = None /\ stringToNumber "-0x10" = None.
Proof. repeat apply conj; vm_compute; reflexivity. Qed.

Example isInt_samples :
  isInt 0 "5" = true /\ isInt 0 "+007" = true /\ isInt 0 "-0" = true /\
  isInt 0 "-2" = false /\ isInt 0 "1.5" = false /\ isInt 0 "1e+21" = false /\
  isInt 0 EmptyString = false /\ isInt 0 "+" = false /\
  isInt 0 hugeDigits = true.
Proof. repeat apply conj; vm_compute; reflexivity. Qed.

Example matchRoute_samples :
  matchRoute [] = Root /\ matchRoute [ EmptyString ] = Root /\
  matchRoute [ "abc" ] = Param "abc" /\
  matchRoute [ "abc"; EmptyString ] = Param "abc" /\
  matchRoute [ EmptyString; EmptyString ] = Unmatched /\
  matchRoute [ "abc"; "def" ] = Unmatched.
Proof. repeat split; reflexivity. Qed.

(* ===================================================================== *)
(** ** Numbers and their decimal strings *)
(* ===================================================================== *)

Section NumberStrings.

Lemma numericValue_digits (d : Decimal.uint) :
  d <> Decimal.Nil ->
  numericValue (NilEmpty.string_of_uint d) = Some (Z.of_uint d).
Proof.
  intros Hd. pose proof (NilEmpty.usu d) as Husu.
  destruct d; [congruence | ..]; unfold numericValue;
    cbn [NilEmpty.string_of_uint Ascii.eqb Bool.eqb isEmpty] in *;
    now rewrite Husu.
Qed.

Lemma N_to_uint_nonnil (n : N) : N.to_uint n <> Decimal.Nil.
Proof.
  destruct n as [|p]; [discriminate|]. apply DecimalPos.Unsigned.to_uint_nonnil.
Qed.

Lemma decimalOfN_eq (n : N) :
  decimalOfN n = NilEmpty.string_of_uint (N.to_uint n).
Proof.
  unfold decimalOfN, NilZero.string_of_uint.
  pose proof (N_to_uint_nonnil n). now destruct (N.to_uint n).
Qed.

Lemma numericValue_decimalOfN (n : N) :
  numericValue (decimalOfN n) = Some (Z.of_N n).
Proof.
  rewrite decimalOfN_eq, numericValue_digits by apply N_to_uint_nonnil.
  unfold Z.of_uint. change (Pos.of_uint ?d) with (N.of_uint d).
  now rewrite DecimalN.Unsigned.of_to.
Qed.

(** The digits of a natural number behind a minus sign read as its
    opposite. *)
Lemma numericValue_minus_decimalOfN (n : N) :
  numericValue (String "-" (decimalOfN n)) = Some (- Z.of_N n).
Proof.
  pose proof (numericValue_decimalOfN n) as Hn.
  rewrite decimalOfN_eq in *.
  pose proof (N_to_uint_nonnil n) as Hnil.
  destruct (N.to_uint n) eqn:E; [congruence | ..];
    unfold numericValue in *;
    cbn [NilEmpty.string_of_uint Ascii.eqb Bool.eqb isEmpty] in *;
    destruct (NilEmpty.uint_of_string _); cbn in *; congruence.
Qed.

Lemma uint_of_string_letter (s t : string) :
  NilEmpty.uint_of_string (s +:+ String "e" t) = None.
Proof.
  induction s as [|a s IH].
  - change (NilEmpty.uint_of_string (String "e" t) = None).
    cbn. now destruct (NilEmpty.uint_of_string t).
  - change (NilEmpty.uint_of_string (String a (s +:+ String "e" t)) = None).
    cbn. now rewrite IH.
Qed.

Lemma exponentForm_not_digits (digits : string) :
  isEmpty digits = false ->
  NilEmpty.uint_of_string (exponentForm digits) = None.
Proof.
  destruct digits as [|d rest]; [discriminate|]. intros _.
  unfold exponentForm.
  match goal with
  | |- context [?a +:+ "e+" +:+ ?b] =>
      change (a +:+ "e+" +:+ b) with (a +:+ String "e" (String "+" b))
  end.
  apply uint_of_string_letter.
Qed.

Lemma decimalOfN_nonempty (n : N) : isEmpty (decimalOfN n) = false.
Proof.
  rewrite decimalOfN_eq. pose proof (N_to_uint_nonnil n).
  now destruct (N.to_uint n).
Qed.

(** Scientific notation behind a minus sign is no string of the integer
    pattern. *)
Lemma numericValue_exponentForm (n : N) :
  numericValue (String "-" (exponentForm (decimalOfN n))) = None.
Proof.
  pose proof (exponentForm_not_digits (decimalOfN n) (decimalOfN_nonempty n))
    as Hnot.
  unfold numericValue. cbn [Ascii.eqb Bool.eqb]. rewrite Hnot.
  by destruct (isEmpty _).
Qed.

(** *** Rounding to a double *)

Lemma roundMagnitude_small (n : Z) :
  n < 2 ^ 53 -> roundMagnitude n = Some n.
Proof. intros H. unfold roundMagnitude. by replace (n <? 2 ^ 53) with true by lia. Qed.

Lemma roundMagnitude_pos (n m : Z) :
  0 < n -> roundMagnitude n = Some m -> 0 < m.
Proof.
  intros Hn. unfold roundMagnitude.
  destruct (n <? 2 ^ 53) eqn:Hsmall; [by intros [= <-]|].
  apply Z.ltb_ge in Hsmall.
  cbv zeta. set (e := Z.log2 n - 52). set (q := n / 2 ^ e).
  assert (53 <= Z.log2 n) as Hlog.
  { change 53 with (Z.log2 (2 ^ 53)). by apply Z.log2_le_mono. }
  assert (0 < 2 ^ e) as Hpow by (apply Z.pow_pos_nonneg; lia).
  assert (2 ^ e <= n) as Hle.
  { transitivity (2 ^ Z.log2 n); [|by apply Z.log2_spec].
    apply Z.pow_le_mono_r; lia. }
  assert (0 < q) as Hq by (by apply Z.div_str_pos).
  destruct (_ || _); destruct (_ <? 2 ^ 1024); intros [= <-]; nia.
Qed.

Lemma toDouble_small (z : Z) : 0 <= z < 2 ^ 53 -> toDouble z = Finite z.
Proof.
  intros [H0 H1]. unfold toDouble.
  rewrite roundMagnitude_small by lia. f_equal. lia.
Qed.

(** Rounding keeps the sign. *)
Lemma toDouble_sign (z : Z) : leNumber (Finite 0) (toDouble z) = (0 <=? z).
Proof.
  unfold toDouble. destruct (roundMagnitude (Z.abs z)) as [m|] eqn:Hm.
  - cbn [leNumber]. destruct (Z.eq_dec z 0) as [->|Hz].
    + done.
    + assert (0 < m) by (apply (roundMagnitude_pos (Z.abs z)); [lia|done]).
      destruct (Z.leb_spec 0 z); [apply Z.leb_le | apply Z.leb_gt]; nia.
  - cbn [leNumber]. destruct (Z.ltb_spec z 0), (Z.leb_spec 0 z); done || lia.
Qed.

(** The Number of a non-negative integer is a non-negative integer or the
    positive infinity. *)
Lemma toDouble_nonNegative (z : Z) : 0 <= z -> nonNegative (toDouble z).
Proof.
  intros Hz. pose proof (toDouble_sign z) as Hs.
  replace (0 <=? z) with true in Hs by lia.
  unfold nonNegative, toDouble in *.
  destruct (roundMagnitude (Z.abs z)) as [m|].
  - left. eexists. split; [done|]. by apply Z.leb_le.
  - right. f_equal. lia.
Qed.

Lemma leNumber_nonNegative (n : number) :
  nonNegative n -> leNumber (Finite 0) n = true.
Proof. intros [(z & -> & Hz)| ->]; [by apply Z.leb_le | done]. Qed.

(** *** Printing *)

Lemma closestMultiple_inside (inside : Z -> bool) (m u c : Z) :
  closestMultiple inside m u = Some c -> inside c = true.
Proof.
  unfold closestMultiple.
  destruct (inside (m / u * u)) eqn:H1, (inside (m / u * u + u)) eqn:H2;
    try discriminate; intros [= <-]; try done.
  by repeat destruct (_ <? _); try destruct (Z.even _).
Qed.

Lemma fewestDigits_pos (inside : Z -> bool) (m : Z) (p : nat) :
  (forall c, inside c = true -> 0 < c) -> 0 < m ->
  0 < fewestDigits inside m p.
Proof.
  intros Hin Hm. induction p as [|p IH]; cbn [fewestDigits];
    destruct (closestMultiple _ _ _) as [c|] eqn:Hc; try done;
    apply Hin; by apply closestMultiple_inside in Hc.
Qed.

Lemma shortestDecimal_pos (m : Z) : 2 ^ 53 <= m -> 0 < shortestDecimal m.
Proof.
  intros Hm. unfold shortestDecimal.
  set (e := Z.log2 m - 52).
  assert (53 <= Z.log2 m) as Hlog.
  { change 53 with (Z.log2 (2 ^ 53)). by apply Z.log2_le_mono. }
  assert (0 < 2 ^ (e - 1)) as Hhalf by (apply Z.pow_pos_nonneg; lia).
  assert (2 ^ e = 2 * 2 ^ (e - 1)) as Hdouble.
  { rewrite <- Z.pow_succ_r by lia. f_equal. lia. }
  assert (2 ^ e <= m) as Hle.
  { transitivity (2 ^ Z.log2 m); [|apply Z.log2_spec; lia].
    apply Z.pow_le_mono_r; lia. }
  apply fewestDigits_pos; [|lia].
  intros c. unfold inInterval.
  destruct (_ =? 2 ^ 52); destruct (Z.even _); intros Hc;
    apply andb_prop in Hc as [Hlo _];
    first [apply Z.leb_le in Hlo | apply Z.ltb_lt in Hlo]; lia.
Qed.

(** What [printMagnitude] prints: the digits of a positive integer, or a
    scientific notation. *)
Lemma printMagnitude_cases (m : Z) :
  0 < m ->
  (exists c, 0 < c /\ (m < 2 ^ 53 -> c = m) /\
             printMagnitude m = decimalOfN (Z.to_N c)) \/
  (exists n, printMagnitude m = exponentForm (decimalOfN n)).
Proof.
  intros Hm. unfold printMagnitude.
  destruct (m <? 2 ^ 53) eqn:Hsmall.
  - apply Z.ltb_lt in Hsmall. left. exists m.
    replace (m <? 10 ^ 21) with true; [done|].
    symmetry. apply Z.ltb_lt. eapply Z.lt_trans; [exact Hsmall|reflexivity].
  - apply Z.ltb_ge in Hsmall. pose proof (shortestDecimal_pos m Hsmall) as Hc.
    destruct (_ <? 10 ^ 21); [left | right; eauto].
    exists (shortestDecimal m). split; [done|]. split; [lia|done].
Qed.

(** A non-negative integer below 2^53 prints as the digits that read back
    as the same integer. *)
Lemma numericValue_numberToString (z : Z) :
  0 <= z < 2 ^ 53 -> numericValue (numberToString z) = Some z.
Proof.
  intros [H0 H1]. unfold numberToString.
  rewrite roundMagnitude_small by lia.
  replace (z <? 0) with false by lia. unfold printMagnitude.
  replace (Z.abs z) with z by lia.
  replace (z <? 2 ^ 53) with true by lia.
  replace (z <? 10 ^ 21) with true.
  - rewrite numericValue_decimalOfN. f_equal. lia.
  - symmetry. apply Z.ltb_lt. eapply Z.lt_trans; [exact H1|reflexivity].
Qed.

(** A negative number never passes [isInt] with [min: 0]. *)
Lemma isInt_negative (z : Z) : z < 0 -> isInt 0 (numberToString z) = false.
Proof.
  intros Hz. unfold isInt, numberToString.
  replace (z <? 0) with true by lia.
  destruct (roundMagnitude (Z.abs z)) as [m|] eqn:Hm; [|done].
  assert (0 < m) as Hpos by (apply (roundMagnitude_pos (Z.abs z)); [lia|done]).
  destruct (printMagnitude_cases m Hpos) as [(c & Hc & _ & ->)|[n ->]].
  - rewrite numericValue_minus_decimalOfN, toDouble_sign.
    apply Z.leb_gt. lia.
  - by rewrite numericValue_exponentForm.
Qed.

Lemma isInt_number_nonneg (z : Z) :
  isInt 0 (numberToString z) = true -> 0 <= z.
Proof.
  intros H. destruct (Z.lt_ge_cases z 0) as [Hneg|]; [|done].
  rewrite isInt_negative in H by done. discriminate.
Qed.

Lemma numericValue_nonempty (s : string) (z : Z) :
  numericValue s = Some z -> isEmpty s = false.
Proof. now destruct s. Qed.

(** *** Strings of digits hold no white space *)

Lemma uint_of_string_rtrim (r : string) (d : Decimal.uint) :
  NilEmpty.uint_of_string r = Some d -> rtrim r = r.
Proof.
  revert d. induction r as [|a r IH]; intros d; [done|].
  cbn [NilEmpty.uint_of_string rtrim].
  destruct (NilEmpty.uint_of_string r) as [d'|] eqn:Hr; [|done].
  rewrite (IH d' eq_refl). intros Ha.
  assert (isSpace a = false) as ->; [|done].
  destruct a as [[] [] [] [] [] [] [] []]; try done.
Qed.

Lemma uint_of_string_head (a : ascii) (r : string) (d : Decimal.uint) :
  NilEmpty.uint_of_string (String a r) = Some d -> isSpace a = false.
Proof.
  cbn [NilEmpty.uint_of_string].
  destruct (NilEmpty.uint_of_string r); [|done].
  destruct a as [[] [] [] [] [] [] [] []]; done.
Qed.

(** [Number] strips nothing from a string of the integer pattern. *)
Lemma trim_numeric (s : string) (z : Z) :
  numericValue s = Some z -> JS.trim s = s.
Proof.
  destruct s as [|c r]; [done|]. unfold numericValue.
  destruct (Ascii.eqb c "-") eqn:Hm; [|destruct (Ascii.eqb c "+") eqn:Hp].
  - apply Ascii.eqb_eq in Hm as ->. destruct (isEmpty r) eqn:Hr; [done|].
    destruct (NilEmpty.uint_of_string r) as [d|] eqn:Hd; [|done]. intros _.
    unfold JS.trim. change (ltrim (String "-" r)) with (String "-" r).
    change (rtrim (String "-" r)) with (String "-" (rtrim r)).
    by rewrite (uint_of_string_rtrim r d Hd).
  - apply Ascii.eqb_eq in Hp as ->. destruct (isEmpty r) eqn:Hr; [done|].
    destruct (NilEmpty.uint_of_string r) as [d|] eqn:Hd; [|done]. intros _.
    unfold JS.trim. change (ltrim (String "+" r)) with (String "+" r).
    change (rtrim (String "+" r)) with (String "+" (rtrim r)).
    by rewrite (uint_of_string_rtrim r d Hd).
  - cbn [isEmpty].
    destruct (NilEmpty.uint_of_string (String c r)) as [d|] eqn:Hd; [|done].
    intros _. unfold JS.trim. cbn [ltrim].
    rewrite (uint_of_string_head c r d Hd).
    by apply (uint_of_string_rtrim _ d).
Qed.

(** On a string of the integer pattern, [Number] is the Number of the
    integer. *)
Lemma stringToNumber_numeric (s : string) (z : Z) :
  numericValue s = Some z -> stringToNumber s = Some (toDouble z).
Proof.
  intros Hs. unfold stringToNumber. rewrite (trim_numeric s z Hs).
  by rewrite (numericValue_nonempty s z Hs), Hs.
Qed.

End NumberStrings.
(* ===================================================================== *)
(** ** The validation middleware *)
(* ===================================================================== *)

Section Validation.

(** [validateItem] accepts exactly the [accepted] bodies and hands the
    sanitized body to the handler. *)
Lemma validateItem_eq (b : body) :
  validateItem b =
  if accepted b then inr (sanitizedBody b)
  else inl {| status := 400; sent := SentValidation (validationErrors b) |}.
Proof.
  unfold validateItem, accepted, validationErrors.
  unfold sanitizedBody, sanitizeField, sanitizeValue.
  unfold validateItemChains, runChains, runChain.
  cbn [field isOptional stack runStack notEmpty isIntMin isString
       Validator.trim Validator.escape].
  change (toString (Some (VStr ?s))) with s.
  destruct (b !! "name") as [vn|] eqn:Hn; cbv beta iota zeta;
    rewrite ?lookup_insert_ne by done;
    (destruct (b !! "quantity") as [vq|] eqn:Hq; cbv beta iota zeta;
     rewrite ?lookup_insert_ne by done;
     (destruct (b !! "location") as [vl|] eqn:Hl; cbv beta iota zeta;
      rewrite ?lookup_insert_ne by done; rewrite ?Hl;
      (destruct (b !! "description") as [vd|] eqn:Hd; cbv beta iota zeta))).
  all: rewrite ?app_nil_r.
  all: try (rewrite (insert_id _ "quantity" vq) by (by rewrite lookup_insert_ne)).
  all: unfold optionalString; try destruct vl; try destruct vd;
    destruct (negb _); destruct (isInt _ _); reflexivity.
Qed.

Lemma validateItem_inr (b b' : body) :
  validateItem b = inr b' -> accepted b = true /\ b' = sanitizedBody b.
Proof.
  rewrite validateItem_eq. destruct (accepted b); [|discriminate].
  now intros [= <-].
Qed.

Lemma validateItem_inl (b : body) (r : response) :
  validateItem b = inl r -> accepted b = false /\ status r = 400.
Proof.
  rewrite validateItem_eq. destruct (accepted b); [discriminate|].
  now intros [= <-].
Qed.

Lemma lookup_sanitizeField (k j : string) (b : body) :
  sanitizeField k b !! j =
  if decide (k = j) then (fun v => sanitizeValue (Some v)) <$> b !! k
  else b !! j.
Proof.
  unfold sanitizeField. destruct (b !! k) as [v|] eqn:Hk.
  - rewrite lookup_insert. now destruct (decide (k = j)).
  - destruct (decide (k = j)) as [<-|]; [by rewrite Hk | done].
Qed.

Lemma lookup_sanitizedBody (b : body) (j : string) :
  sanitizedBody b !! j =
  if decide (j = "name") then Some (sanitizeValue (b !! "name"))
  else if decide (j = "location" \/ j = "description")
       then (fun v => sanitizeValue (Some v)) <$> b !! j
       else b !! j.
Proof.
  unfold sanitizedBody. rewrite !lookup_sanitizeField.
  rewrite !lookup_insert_ne by done.
  destruct (decide (j = "name")) as [->|Hn].
  - rewrite !decide_False by done. by rewrite lookup_insert_eq.
  - rewrite lookup_insert_ne by done.
    destruct (decide ("description" = j)) as [<-|Hd].
    + rewrite decide_False by done. by rewrite decide_True by (by right).
    + destruct (decide ("location" = j)) as [<-|Hl].
      * by rewrite decide_True by (by left).
      * rewrite decide_False; [done|]. intros [->| ->]; congruence.
Qed.

End Validation.

(* ===================================================================== *)
(** ** Casting against the Item schema *)
(* ===================================================================== *)

Section Casting.

Lemma lookup_castObject (ps : list (string * schemaPath)) (isStrict : bool)
    (obj : body) (k : string) :
  castObject ps isStrict obj !! k =
  obj !! k ≫= fun v =>
    match pathOf ps k with
    | Some p => Some (castValue (type p) v)
    | None => if isStrict then None else Some (Some (rawValue v))
    end.
Proof. apply map_lookup_imap. Qed.

Lemma lookup_castFields (sch : schema) (obj : body) (k : string) :
  castFields sch obj !! k =
  obj !! k ≫= fun v =>
    match pathOf (paths sch) k with
    | Some p => Some (castValue (type p) v)
    | None => if strict sch then None else Some (Some (rawValue v))
    end.
Proof. apply lookup_castObject. Qed.

Lemma lookup_castSuccesses (m : gmap string (option bson)) (k : string) :
  castSuccesses m !! k = m !! k ≫= id.
Proof. apply lookup_omap. Qed.

Lemma castFailures_nil (m : gmap string (option bson)) :
  (forall k, m !! k <> Some None) -> castFailures m = [].
Proof.
  intros H. unfold castFailures.
  replace (filter _ m) with (∅ : gmap string (option bson)).
  - by rewrite map_to_list_empty.
  - symmetry. apply map_empty. intros k. apply map_lookup_filter_None. right.
    intros [x|] Hk; [done|]. by destruct (H k).
Qed.


Lemma lookup_pick (keys : list string) (b : body) (k : string) :
  pick keys b !! k = if decide (k ∈ keys) then b !! k else None.
Proof.
  unfold pick. rewrite map_lookup_filter.
  destruct (b !! k) as [v|]; simpl; [|by destruct (decide _)].
  by destruct (decide (k ∈ keys));
    [rewrite option_guard_True | rewrite option_guard_False].
Qed.

Lemma lookup_plainFields (b : body) (k : string) :
  plainFields b !! k = if isOperator k then None else b !! k.
Proof.
  unfold plainFields. rewrite map_lookup_filter.
  destruct (b !! k) as [v|]; simpl; [|by destruct (isOperator k)].
  destruct (isOperator k) eqn:Hk;
    [by rewrite option_guard_False | by rewrite option_guard_True].
Qed.

Lemma lookup_operators (b : body) (k : string) :
  operators b !! k = if isOperator k then b !! k else None.
Proof.
  unfold operators. rewrite map_lookup_filter.
  destruct (b !! k) as [v|]; simpl; [|by destruct (isOperator k)].
  destruct (isOperator k) eqn:Hk;
    [by rewrite option_guard_True | by rewrite option_guard_False].
Qed.

Lemma castString_total (v : value) : castString v <> None.
Proof. by destruct v as [|[]| |]. Qed.

(** A quantity that passes [isInt] casts to a number that is not
    negative. *)
Lemma castNumber_quantity (v : value) :
  isInt 0 (toString (Some v)) = true ->
  exists n, castNumber v = Some (BNum n) /\ nonNegative n.
Proof.
  destruct v as [|[]|z|s]; cbn [toString castNumber]; try discriminate.
  - intros H. exists (toDouble z). split; [done|].
    by apply toDouble_nonNegative, isInt_number_nonneg.
  - unfold isInt. destruct (numericValue s) as [z|] eqn:Hs; [|discriminate].
    rewrite toDouble_sign. intros Hz. apply Z.leb_le in Hz.
    rewrite (numericValue_nonempty s z Hs), (stringToNumber_numeric s z Hs).
    exists (toDouble z). split; [done|]. by apply toDouble_nonNegative.
Qed.

Lemma pathOf_item (k : string) :
  pathOf (paths itemSchema) k =
  if decide (k = "name")
  then Some {| type := TString; required := true;
               maxLength := Some 100%nat; min := None |}
  else if decide (k = "quantity")
  then Some {| type := TNumber; required := true;
               maxLength := None; min := Some 0 |}
  else if decide (k = "location" \/ k = "description")
  then Some {| type := TString; required := false;
               maxLength := None; min := None |}
  else None.
Proof.
  cbn [pathOf paths itemSchema].
  destruct (decide (k = "name")) as [->|?]; [done|].
  rewrite (proj2 (String.eqb_neq "name" k)) by done.
  destruct (decide (k = "quantity")) as [->|?]; [done|].
  rewrite (proj2 (String.eqb_neq "quantity" k)) by done.
  destruct (decide (k = "location" \/ k = "description")) as [[->| ->]|Hne];
    [done | done |].
  rewrite !(proj2 (String.eqb_neq _ k)); [done | |]; intros <-; apply Hne; auto.
Qed.

Lemma pathOf_app (ps qs : list (string * schemaPath)) (k : string) :
  pathOf (ps ++ qs) k =
  match pathOf ps k with Some p => Some p | None => pathOf qs k end.
Proof.
  induction ps as [|[k' p] ps IH]; [done|]. cbn [pathOf app].
  change ((k', p) :: ps ++ qs) with ((k', p) :: (ps ++ qs)).
  cbn [pathOf]. by destruct (String.eqb k' k).
Qed.

(** The paths of an update of an Item: the declared ones, [_id] as an
    ObjectId and [__v] as a number. *)
Lemma pathOf_update (k : string) :
  pathOf (updatePaths itemSchema) k =
  match pathOf (paths itemSchema) k with
  | Some p => Some p
  | None =>
      if decide (k = "_id")
      then Some {| type := TObjectId; required := false;
                   maxLength := None; min := None |}
      else if decide (k = "__v")
      then Some {| type := TNumber; required := false;
                   maxLength := None; min := None |}
      else None
  end.
Proof.
  unfold updatePaths. rewrite pathOf_app.
  destruct (pathOf (paths itemSchema) k); [done|].
  unfold versionKey. cbn [pathOf].
  destruct (decide (k = "_id")) as [->|?]; [done|].
  rewrite (proj2 (String.eqb_neq "_id" k)) by done.
  destruct (decide (k = "__v")) as [->|?]; [done|].
  by rewrite (proj2 (String.eqb_neq "__v" k)) by done.
Qed.

End Casting.

(* ===================================================================== *)
(** ** Reading an update *)
(* ===================================================================== *)

Section Updates.

Lemma lookup_hooked (b : body) (k : string) :
  hooked b !! k =
  if decide (k = "$set" \/ k = "$setOnInsert" \/ k = "updatedAt"
             \/ k = "createdAt")
  then None else b !! k.
Proof.
  unfold hooked. rewrite !lookup_delete.
  destruct (decide ("$set" = k)) as [<-|?]; [by rewrite decide_True by auto|].
  destruct (decide ("$setOnInsert" = k)) as [<-|?];
    [by rewrite decide_True by auto|].
  destruct (decide ("updatedAt" = k)) as [<-|?];
    [by rewrite decide_True by auto|].
  destruct (decide ("createdAt" = k)) as [<-|?];
    [by rewrite decide_True by auto|].
  rewrite decide_False; [done|]. intros [|[|[|]]]; congruence.
Qed.

(** When the hook of the timestamps lets an update through, it hands on the
    [hooked] update. *)
Lemma applyTimestamps_resolved (u u' : body) :
  applyTimestampsToUpdate itemSchema u = Resolved u' -> u' = hooked u.
Proof.
  unfold applyTimestampsToUpdate. cbn [timestamps itemSchema].
  destruct (truthy <$> u !! "$set") as [[]|];
    destruct (truthy <$> u !! "$setOnInsert") as [[]|];
    try discriminate; by intros [= <-].
Qed.

Lemma applyTimestamps_readable (u : body) :
  (forall k v, u !! k = Some v -> readableKey k v = true) ->
  applyTimestampsToUpdate itemSchema u = Resolved (hooked u).
Proof.
  intros Hread. unfold applyTimestampsToUpdate. cbn [timestamps itemSchema].
  destruct (u !! "$set") as [v|] eqn:Hset;
    destruct (u !! "$setOnInsert") as [w|] eqn:Hins; cbn [fmap option_fmap option_map];
    try (specialize (Hread _ _ Hset) as Hv; unfold readableKey in Hv;
         cbn in Hv; apply negb_true_iff in Hv; rewrite Hv);
    try (specialize (Hread _ _ Hins) as Hw; unfold readableKey in Hw;
         cbn in Hw; apply negb_true_iff in Hw; rewrite Hw);
    done.
Qed.



(** What [castUpdate] hands on when it does not throw. *)
Lemma castUpdate_resolved (sch : schema) (u : body) (set : document) :
  castUpdate sch u = Resolved set ->
  set = castSuccesses
          (castObject (updatePaths sch) (strict sch) (plainFields u)).
Proof.
  unfold castUpdate. destruct (filter _ (map_to_list (operators u))) as [|[? ?] ?];
    [|discriminate].
  destruct (castFailures _); [|discriminate]. by intros [= <-].
Qed.

Lemma castUpdate_plain (sch : schema) (u : body) :
  operators u = ∅ ->
  castFailures (castObject (updatePaths sch) (strict sch) (plainFields u)) = [] ->
  castUpdate sch u
  = Resolved (castSuccesses
                (castObject (updatePaths sch) (strict sch) (plainFields u))).
Proof.
  intros Hops Hcast. unfold castUpdate.
  rewrite Hops, map_to_list_empty, filter_nil, Hcast. done.
Qed.



Lemma forallb_lookup (f : string * value -> bool) (b : body) :
  forallb f (map_to_list b) = true <->
  forall k v, b !! k = Some v -> f (k, v) = true.
Proof.
  rewrite forallb_forall. split.
  - intros H k v Hk. apply H, list_elem_of_In. by apply elem_of_map_to_list.
  - intros H [k v] Hin. apply list_elem_of_In, elem_of_map_to_list in Hin. auto.
Qed.


Lemma readableUpdate_lookup (b : body) :
  readableUpdate b = true <->
  forall k v, b !! k = Some v -> readableKey k v = true.
Proof. apply (forallb_lookup (fun kv => readableKey kv.1 kv.2)). Qed.

Lemma plainUpdate_lookup (b : body) :
  plainUpdate b = true <-> forall k v, b !! k = Some v -> plainKey k = true.
Proof. apply (forallb_lookup (fun kv => plainKey kv.1)). Qed.

Lemma plainKey_inv (k : string) :
  plainKey k = true ->
  (k ∉ managedKeys) /\ isOperator k = false /\ hasDot k = false.
Proof.
  unfold plainKey. intros H. apply andb_prop in H as [H Hdot].
  apply andb_prop in H as [Hman Hop].
  apply negb_true_iff in Hdot, Hop, Hman.
  split; [|done]. by apply bool_decide_eq_false in Hman.
Qed.

(** A plain update is readable. *)
Lemma plainUpdate_readable (b : body) :
  plainUpdate b = true -> readableUpdate b = true.
Proof.
  rewrite plainUpdate_lookup, readableUpdate_lookup. intros H k v Hk.
  destruct (plainKey_inv k (H k v Hk)) as (Hman & Hop & _).
  unfold readableKey. rewrite Hop.
  unfold managedKeys in Hman. rewrite !not_elem_of_cons in Hman.
  destruct Hman as (Hid & Hv & _).
  by rewrite (proj2 (String.eqb_neq k "_id")), (proj2 (String.eqb_neq k "__v")).
Qed.

End Updates.

(* ===================================================================== *)
(** ** The handlers, case by case *)
(* ===================================================================== *)

Section Handlers.

Lemma lookup_castItem (obj : body) (k : string) :
  castSuccesses (castFields itemSchema obj) !! k =
  match pathOf (paths itemSchema) k with
  | Some p => obj !! k ≫= castValue (type p)
  | None => None
  end.
Proof.
  rewrite lookup_castSuccesses, lookup_castFields.
  destruct (pathOf (paths itemSchema) k) as [p|];
    destruct (obj !! k) as [v|]; by cbn.
Qed.

Lemma castItem_only_declared (obj : body) (k : string) :
  is_Some (castSuccesses (castFields itemSchema obj) !! k) ->
  k ∈ declaredNames.
Proof.
  rewrite lookup_castItem, pathOf_item. unfold declaredNames. cbn.
  destruct (decide (k = "name")) as [->|?]; [set_solver|].
  destruct (decide (k = "quantity")) as [->|?]; [set_solver|].
  destruct (decide (k = "location" \/ k = "description")) as [[->| ->]|?];
    [set_solver | set_solver |].
  by intros [? [=]].
Qed.

Lemma lookup_created (e : env) (b' : body) (k : string) :
  created e b' !! k =
  if decide (k = "__v") then Some (BNum (Finite 0))
  else if decide (k = "updatedAt" \/ k = "createdAt") then Some (BDate (now e))
  else if decide (k = "_id") then Some (BObjectId (newId e))
  else if decide (k ∈ pickedKeys)
       then match pathOf (paths itemSchema) k with
            | Some p => b' !! k ≫= castValue (type p)
            | None => None
            end
       else None.
Proof.
  unfold created, stampVersion, versionKey, stampCreated, newDocument.
  cbn [timestamps itemSchema fields].
  rewrite !lookup_insert.
  destruct (decide ("__v" = k)) as [<-|?]; [done|].
  rewrite (decide_False (P := k = "__v")) by congruence.
  destruct (decide ("updatedAt" = k)) as [<-|?];
    [by rewrite decide_True by auto|].
  destruct (decide ("createdAt" = k)) as [<-|?];
    [by rewrite decide_True by auto|].
  rewrite (decide_False (P := k = "updatedAt" \/ k = "createdAt"))
    by (intros [->| ->]; congruence).
  destruct (decide ("_id" = k)) as [<-|?]; [done|].
  rewrite (decide_False (P := k = "_id")) by congruence.
  change (castSuccesses _ !! k) with
    (castSuccesses (castFields itemSchema (pick pickedKeys b')) !! k).
  rewrite lookup_castItem, lookup_pick.
  destruct (decide (k ∈ pickedKeys)); [done|]. by destruct (pathOf _ k).
Qed.

(** The fields an update sets: the values of its keys that are paths of an
    update, cast, leaving out the operators, the two timestamps and
    [_id]. *)
Lemma lookup_updateOf (b' : body) (k : string) :
  updateOf b' !! k =
  if decide (k = "_id") then None
  else if isOperator k then None
  else if decide (k = "updatedAt" \/ k = "createdAt") then None
  else match pathOf (updatePaths itemSchema) k with
       | Some p => b' !! k ≫= castValue (type p)
       | None => None
       end.
Proof.
  unfold updateOf. rewrite lookup_delete.
  destruct (decide ("_id" = k)) as [<-|?]; [done|].
  rewrite (decide_False (P := k = "_id")) by congruence.
  rewrite lookup_castSuccesses, lookup_castObject, lookup_plainFields.
  destruct (isOperator k) eqn:Hop; [done|].
  rewrite lookup_hooked.
  destruct (decide (k = "updatedAt" \/ k = "createdAt")) as [Hk|Hk].
  - rewrite decide_True; [done|]. tauto.
  - rewrite decide_False.
    + destruct (pathOf (updatePaths itemSchema) k) as [p|];
        destruct (b' !! k) as [v|]; by cbn.
    + intros [->|[->|[->| ->]]]; try discriminate; apply Hk; auto.
Qed.

Lemma lookup_updated (e : env) (b' : body) (old : document) (k : string) :
  updated e b' old !! k =
  if decide (k = "updatedAt") then Some (BDate (now e))
  else match updateOf b' !! k with
       | Some x => Some x
       | None => old !! k
       end.
Proof.
  unfold updated, stampUpdated. cbn [timestamps itemSchema].
  rewrite lookup_insert.
  destruct (decide ("updatedAt" = k)) as [<-|?];
    [by rewrite decide_True|].
  rewrite (decide_False (P := k = "updatedAt")) by congruence.
  rewrite lookup_union.
  by destruct (updateOf b' !! k), (old !! k).
Qed.

Lemma postItem_inv (e : env) (b' : body) (st st' : collection)
    (c : Z) (d : document) :
  postItem e b' st = (st', {| status := c; sent := SentItem d |}) ->
  c = 201 /\ dbUp e = true /\ st !! newId e = None /\
  d = created e b' /\ st' = <[newId e := d]> st /\
  failedPaths itemSchema (fields (newDocument itemSchema e (pick pickedKeys b'))) = [].
Proof.
  unfold postItem, save. cbn [docId newDocument].
  fold (created e b').
  destruct (castErrors _ ++ failedPaths _ _)%list eqn:Hf; [|discriminate].
  apply app_eq_nil in Hf as [_ Hf].
  destruct (dbUp e); cbn [negb]; [|discriminate].
  destruct (st !! newId e); [discriminate|].
  intros [= <- <- <-]. done.
Qed.


(** The ways [findByIdAndUpdate] ends on an Item. *)
Lemma findByIdAndUpdate_cases (e : env) (id : string) (b' : body)
    (st : collection) :
  (exists err, findByIdAndUpdate itemSchema e id b' st = Rejected err) \/
  (exists oid, castObjectId id = Some oid /\ dbUp e = true /\
     castUpdate itemSchema (hooked b')
     = Resolved (castSuccesses
                   (castObject (updatePaths itemSchema) (strict itemSchema)
                      (plainFields (hooked b')))) /\
     ((st !! oid = None /\
       findByIdAndUpdate itemSchema e id b' st = Resolved (st, None)) \/
      (exists old, st !! oid = Some old /\
         findByIdAndUpdate itemSchema e id b' st
         = Resolved (<[oid := updated e b' old]> st,
                     Some (updated e b' old))))).
Proof.
  unfold findByIdAndUpdate.
  destruct (applyTimestampsToUpdate itemSchema b') as [u|err] eqn:Hhook;
    [|left; eauto].
  apply applyTimestamps_resolved in Hhook as ->.
  destruct (castObjectId id) as [oid|]; [|left; eauto].
  destruct (castUpdate itemSchema (hooked b')) as [set|err] eqn:Hcast;
    [|left; eauto].
  pose proof (castUpdate_resolved _ _ _ Hcast) as ->.
  destruct (dbUp e); cbn [negb]; [|left; eauto].
  destruct (st !! oid) as [old|] eqn:Hold.
  - destruct (match _ !! "_id" with Some x => sameId x oid | None => true end);
      [|left; eauto].
    right. exists oid. repeat split; try done. right. exists old. by split.
  - right. exists oid. repeat split; try done. by left.
Qed.

Lemma putItem_inv (e : env) (id : string) (b' : body) (st st' : collection)
    (c : Z) (d : document) :
  putItem e id b' st = (st', {| status := c; sent := SentItem d |}) ->
  c = 200 /\ dbUp e = true /\
  exists oid old, castObjectId id = Some oid /\ st !! oid = Some old /\
    d = updated e b' old /\ st' = <[oid := d]> st.
Proof.
  unfold putItem.
  destruct (findByIdAndUpdate_cases e id b' st)
    as [[err ->]|(oid & Hid & Hdb & _ & [[_ ->]|(old & Hold & ->)])];
    try discriminate.
  intros [= <- <- <-]. eauto 10.
Qed.





(** A PUT or a DELETE on one non-empty segment is routed to its handler. *)
Lemma matchRoute_id (id : string) :
  isEmpty id = false -> matchRoute [id] = Param id.
Proof. intros H. cbn. by rewrite H. Qed.

End Handlers.

(* ===================================================================== *)
(** ** Accepted bodies *)
(* ===================================================================== *)

Section Accepted.

Lemma accepted_quantity (b : body) :
  accepted b = true ->
  exists v, b !! "quantity" = Some v /\ isInt 0 (toString (Some v)) = true.
Proof.
  unfold accepted. intros H.
  destruct (b !! "quantity") as [v|] eqn:Hq; [exists v|].
  - split; [done|]. by destruct (negb _), (isInt _ _).
  - cbn in H. by rewrite andb_false_r in H.
Qed.

Lemma accepted_optional (b : body) (k : string) :
  accepted b = true -> k = "location" \/ k = "description" ->
  optionalString (b !! k) = true.
Proof.
  unfold accepted. intros H [-> | ->];
    destruct (optionalString (b !! "location")),
             (optionalString (b !! "description")); try done;
    by rewrite ?andb_false_r in H.
Qed.

(** No cast fails on an object whose quantity converts to a number. *)
Lemma castFailures_item (obj : body) :
  (forall v, obj !! "quantity" = Some v -> castNumber v <> None) ->
  castFailures (castFields itemSchema obj) = [].
Proof.
  intros Hq. apply castFailures_nil. intros k.
  rewrite lookup_castFields, pathOf_item.
  destruct (obj !! k) as [v|] eqn:Hk; [|done]. cbn.
  destruct (decide (k = "name")); [cbn; by destruct v as [|[]| |]|].
  destruct (decide (k = "quantity")) as [->|].
  - cbn. specialize (Hq v Hk). by destruct (castNumber v).
  - destruct (decide _); [cbn; by destruct v as [|[]| |]|done].
Qed.

Lemma castFailures_picked (b : body) :
  accepted b = true ->
  castFailures (castFields itemSchema (pick pickedKeys (sanitizedBody b))) = [].
Proof.
  intros H. apply castFailures_item. intros v.
  rewrite lookup_pick, lookup_sanitizedBody. cbn.
  destruct (accepted_quantity b H) as (v' & Hv' & Hint).
  rewrite Hv'. intros [= <-].
  destruct (castNumber_quantity v' Hint) as (z & -> & _). done.
Qed.

Lemma castObjectId_nonempty (id : string) (oid : N) :
  castObjectId id = Some oid -> isEmpty id = false.
Proof. by destruct id. Qed.

(** The keys of the sanitized body that are neither operators nor the four
    declared names hold what the body holds. *)
Lemma sanitizedBody_other (b : body) (k : string) :
  k ∉ declaredNames -> sanitizedBody b !! k = b !! k.
Proof.
  unfold declaredNames. cbn. rewrite !not_elem_of_cons.
  intros (Hn & _ & Hl & Hd & _). rewrite lookup_sanitizedBody.
  rewrite decide_False by done. rewrite decide_False; [done|].
  intros [|]; done.
Qed.

Lemma readableKey_declared (k : string) (v : value) :
  k ∈ declaredNames -> readableKey k v = true.
Proof.
  unfold declaredNames. cbn. rewrite !elem_of_cons, elem_of_nil.
  intros [->|[->|[->|[->|[]]]]]; done.
Qed.

(** Sanitizing changes nothing in whether an update is readable. *)
Lemma readable_sanitized (b : body) :
  readableUpdate b = true ->
  forall k v, sanitizedBody b !! k = Some v -> readableKey k v = true.
Proof.
  rewrite readableUpdate_lookup. intros Hread k v Hk.
  destruct (decide (k ∈ declaredNames)) as [Hin|Hout].
  - by apply readableKey_declared.
  - rewrite sanitizedBody_other in Hk by done. by apply Hread.
Qed.

(** A readable update of an accepted body holds no operator once the hook
    has run, and all its values cast. *)
Lemma operators_readable (b' : body) :
  (forall k v, b' !! k = Some v -> readableKey k v = true) ->
  operators (hooked b') = ∅.
Proof.
  intros Hread. apply map_empty. intros k.
  rewrite lookup_operators. destruct (isOperator k) eqn:Hop; [|done].
  rewrite lookup_hooked. destruct (decide _) as [|Hk]; [done|].
  destruct (b' !! k) as [v|] eqn:Hv; [|done].
  specialize (Hread k v Hv). unfold readableKey in Hread. rewrite Hop in Hread.
  apply andb_prop in Hread as [Hname _].
  apply orb_prop in Hname as [H|H]; apply String.eqb_eq in H; subst k;
    exfalso; apply Hk; auto.
Qed.

Lemma castFailures_readable (b : body) :
  accepted b = true -> readableUpdate b = true ->
  castFailures (castObject (updatePaths itemSchema) (strict itemSchema)
                  (plainFields (hooked (sanitizedBody b)))) = [].
Proof.
  intros Hacc Hread. apply castFailures_nil. intros k.
  rewrite lookup_castObject, lookup_plainFields.
  destruct (isOperator k) eqn:Hop; [done|].
  rewrite lookup_hooked. destruct (decide _); [done|].
  destruct (sanitizedBody b !! k) as [v|] eqn:Hk; [|done].
  pose proof (readable_sanitized b Hread k v Hk) as Hkey.
  rewrite pathOf_update, pathOf_item. cbn [mbind option_bind].
  destruct (decide (k = "name")); [cbn; by destruct v as [|[]| |]|].
  destruct (decide (k = "quantity")) as [->|].
  - cbn. rewrite lookup_sanitizedBody in Hk. cbn in Hk.
    destruct (accepted_quantity b Hacc) as (v' & Hv' & Hint).
    rewrite Hv' in Hk. injection Hk as <-.
    destruct (castNumber_quantity v' Hint) as (z & -> & _). done.
  - destruct (decide (k = "location" \/ k = "description"));
      [cbn; by destruct v as [|[]| |]|].
    unfold readableKey in Hkey. rewrite Hop in Hkey.
    destruct (decide (k = "_id")) as [->|?].
    + cbn in *. by destruct (castId v).
    + rewrite (proj2 (String.eqb_neq k "_id")) in Hkey by done.
      destruct (decide (k = "__v")) as [->|?]; [|done].
      cbn in *. by destruct (castNumber v).
Qed.

(** The cast of a readable update of an accepted body succeeds. *)
Lemma castUpdate_readable (b : body) :
  accepted b = true -> readableUpdate b = true ->
  applyTimestampsToUpdate itemSchema (sanitizedBody b)
  = Resolved (hooked (sanitizedBody b)) /\
  castUpdate itemSchema (hooked (sanitizedBody b))
  = Resolved (castSuccesses
                (castObject (updatePaths itemSchema) (strict itemSchema)
                   (plainFields (hooked (sanitizedBody b))))).
Proof.
  intros Hacc Hread. pose proof (readable_sanitized b Hread) as Hkeys. split.
  - by apply applyTimestamps_readable.
  - apply castUpdate_plain; [by apply operators_readable|].
    by apply castFailures_readable.
Qed.


End Accepted.

(* ===================================================================== *)
(** ** Answers and their documents *)
(* ===================================================================== *)

Section Answers.

Lemma save_down (e : env) (d : draft) (st : collection) :
  dbUp e = false -> exists err, save itemSchema e d st = Rejected err.
Proof.
  intros Hdb. unfold save. destruct (_ ++ _)%list; [|eauto].
  rewrite Hdb. eauto.
Qed.

Lemma findByIdAndUpdate_down (e : env) (id : string) (b : body)
    (st : collection) :
  dbUp e = false ->
  exists err, findByIdAndUpdate itemSchema e id b st = Rejected err.
Proof.
  intros Hdb.
  destruct (findByIdAndUpdate_cases e id b st) as [H|(oid & _ & Hup & _)];
    [done | congruence].
Qed.

Lemma findByIdAndDelete_down (e : env) (id : string) (st : collection) :
  dbUp e = false -> exists err, findByIdAndDelete e id st = Rejected err.
Proof.
  intros Hdb. unfold findByIdAndDelete.
  destruct (castObjectId id); [|eauto]. rewrite Hdb. eauto.
Qed.

(** Every answer that carries an item comes from a create or an update. *)
Lemma router_sent_item (e : env) (req : request) (st st' : collection)
    (c : Z) (d : document) :
  router e req st = (st', {| status := c; sent := SentItem d |}) ->
  accepted (reqBody req) = true /\
  ((reqMethod req = POST /\ c = 201 /\ dbUp e = true /\ st !! newId e = None /\
    d = created e (sanitizedBody (reqBody req)) /\
    st' = <[newId e := d]> st) \/
   (reqMethod req = PUT /\ c = 200 /\ dbUp e = true /\
    exists oid old, st !! oid = Some old /\
      d = updated e (sanitizedBody (reqBody req)) old /\
      st' = <[oid := d]> st)).
Proof.
  destruct req as [m p b]. unfold router. cbn [reqMethod reqPath reqBody].
  destruct m, (matchRoute p) as [|id|]; try discriminate.
  - unfold getItems. by destruct (findSorted e st).
  - unfold withValidation. rewrite validateItem_eq.
    destruct (accepted b); [|discriminate].
    intros H. apply postItem_inv in H as (-> & ? & ? & ? & ? & _).
    split; [done|]. by left.
  - unfold withValidation. rewrite validateItem_eq.
    destruct (accepted b); [|discriminate].
    intros H.
    apply putItem_inv in H as (-> & ? & oid & old & _ & ? & ? & ?).
    split; [done|]. right. eauto 10.
  - unfold deleteItem.
    by destruct (findByIdAndDelete e id st) as [[? [|]]|].
Qed.

Lemma created_name (e : env) (b : body) :
  created e (sanitizedBody b) !! "name"
  = Some (BStr (JS.escape (JS.trim (toString (b !! "name"))))).
Proof. rewrite lookup_created, lookup_sanitizedBody. done. Qed.

Lemma updated_name (e : env) (b : body) (old : document) :
  updated e (sanitizedBody b) old !! "name"
  = Some (BStr (JS.escape (JS.trim (toString (b !! "name"))))).
Proof.
  rewrite lookup_updated, lookup_updateOf, lookup_sanitizedBody. done.
Qed.

Lemma sanitized_optional (b : body) (k : string) (v : value) :
  accepted b = true -> k = "location" \/ k = "description" ->
  b !! k = Some v ->
  sanitizedBody b !! k = Some (VStr (JS.escape (JS.trim (toString (Some v))))).
Proof.
  intros Hacc Hk Hv. rewrite lookup_sanitizedBody.
  destruct Hk as [-> | ->]; by rewrite Hv.
Qed.

(** The answer to an update of an accepted body, the id well formed and the
    database answering: no record, a changed [_id], or the updated
    record. *)
Lemma putItem_accepted (e : env) (id : string) (oid : N) (b : body)
    (st : collection) :
  castObjectId id = Some oid -> dbUp e = true -> accepted b = true ->
  readableUpdate b = true ->
  putItem e id (sanitizedBody b) st =
  match st !! oid with
  | None => (st, {| status := 404; sent := SentMessage "Item not found" |})
  | Some old =>
      if match castSuccesses
                 (castObject (updatePaths itemSchema) (strict itemSchema)
                    (plainFields (hooked (sanitizedBody b)))) !! "_id" with
         | Some x => sameId x oid
         | None => true
         end
      then (<[oid := updated e (sanitizedBody b) old]> st,
            {| status := 200;
               sent := SentItem (updated e (sanitizedBody b) old) |})
      else (st, {| status := 400; sent := SentError (ImmutableError "_id") |})
  end.
Proof.
  intros Hid Hdb Hacc Hread.
  destruct (castUpdate_readable b Hacc Hread) as [Hhook Hcast].
  unfold putItem, findByIdAndUpdate. rewrite Hhook, Hid, Hcast, Hdb.
  cbn [negb]. destruct (st !! oid) as [old|]; [|done].
  by destruct (match _ !! "_id" with Some x => sameId x oid | None => true end).
Qed.

End Answers.

(* ===================================================================== *)
(** ** Invariants of the collection *)
(* ===================================================================== *)

Section Invariants.








Lemma sanitizedBody_quantity (b : body) :
  sanitizedBody b !! "quantity" = b !! "quantity".
Proof. by rewrite lookup_sanitizedBody. Qed.

Lemma created_quantity_eq (e : env) (b' : body) :
  created e b' !! "quantity" = b' !! "quantity" ≫= castNumber.
Proof. by rewrite lookup_created. Qed.





End Invariants.

(* ===================================================================== *)
(** ** Keys outside the schema *)
(* ===================================================================== *)

Section ExtraKeys.

Variables (k : string) (v : value).
Hypothesis undeclared : k ∉ declaredNames.








(** For an update the key must also be none that Mongoose reads in its own
    way: no operator, and neither [_id] nor [__v]. *)
Hypothesis notOperator : isOperator k = false.
Hypothesis notId : k <> "_id".
Hypothesis notVersion : k <> "__v".

Lemma pathOf_update_extra : pathOf (updatePaths itemSchema) k = None.
Proof.
  rewrite pathOf_update, pathOf_item.
  unfold declaredNames in undeclared. cbn in undeclared.
  rewrite !not_elem_of_cons in undeclared.
  rewrite !decide_False; [done|tauto..].
Qed.

Lemma updateOf_insert (b' : body) : updateOf (<[k := v]> b') = updateOf b'.
Proof.
  apply map_eq. intros j. rewrite !lookup_updateOf.
  destruct (decide (j = "_id")); [done|]. destruct (isOperator j); [done|].
  destruct (decide (j = "updatedAt" \/ j = "createdAt")); [done|].
  destruct (decide (k = j)) as [<-|Hj]; [|by rewrite lookup_insert_ne].
  by rewrite pathOf_update_extra.
Qed.






End ExtraKeys.

(* ===================================================================== *)
(** ** Creation *)
(* ===================================================================== *)

Section Creation.

Lemma lookup_draft (e : env) (obj : body) (k : string) :
  fields (newDocument itemSchema e obj) !! k =
  if decide (k = "_id") then Some (BObjectId (newId e))
  else castSuccesses (castFields itemSchema obj) !! k.
Proof.
  cbn [newDocument fields]. rewrite lookup_insert.
  destruct (decide ("_id" = k)) as [<-|?]; [done|].
  by rewrite decide_False by congruence.
Qed.

Lemma failedPaths_nil (d : document) (s : string) (n : number) :
  d !! "name" = Some (BStr s) -> isEmpty s = false ->
  (String.length s <= 100)%nat ->
  d !! "quantity" = Some (BNum n) -> nonNegative n ->
  failedPaths itemSchema d = [].
Proof.
  intros Hn Hs Hlen Hq Hz. unfold failedPaths. cbn [paths itemSchema].
  assert (forall v,
            validPath
              {| type := TString; required := false;
                 maxLength := None; min := None |} v = true) as Hfree by done.
  rewrite !filter_cons, filter_nil. cbn [fst snd]. rewrite Hn, Hq.
  rewrite !Hfree.
  assert (validPath
            {| type := TString; required := true;
               maxLength := Some 100%nat; min := None |}
            (Some (BStr s)) = true) as ->.
  { unfold validPath. cbn. rewrite Hs. cbn. rewrite andb_true_r.
    by apply Nat.leb_le. }
  assert (validPath
            {| type := TNumber; required := true;
               maxLength := None; min := Some 0 |}
            (Some (BNum n)) = true) as ->.
  { unfold validPath. cbn [required type maxLength min checkRequired checkMin andb].
    by apply leNumber_nonNegative. }
  done.
Qed.

Lemma escape_trim_nonempty (s : string) :
  isEmpty (JS.escape (JS.trim s)) = false -> isEmpty s = false.
Proof. by destruct s. Qed.

End Creation.

(* ===================================================================== *)
(** ** The claims *)
(* ===================================================================== *)

(** Closed equations are settled by evaluation in the virtual machine. *)
Ltac evaluate :=
  lazymatch goal with
  | |- ?a = ?b => exact (@eq_refl _ b <: a = b)
  end.

Lemma oneItem_record :
  oneItem !! 1%N = Some (created (up 1000 1) (sanitizedBody laptop)).
Proof. evaluate. Qed.

(** *** C1: get by id *)

(** C1, as amended.  The router registers no route for GET on ['/:id']:
    for every non-empty id, stored or not, and whatever follows it, a GET
    below the collection root matches no route, is answered 404 by
    Express's final handler and leaves the collection as it was.  (With an
    empty id the path is the root with a slash after it, which is the list
    route.) *)
Theorem get_by_id_not_routed (e : env) (id : string) (rest : list string)
    (st : collection) :
  isEmpty id = false ->
  router e (getReq (id :: rest)) st
  = (st, {| status := 404; sent := NoRoute |}) /\
  router e (getReq [ EmptyString ]) st = router e (getReq []) st.
Proof.
  intros Hid. split; [|reflexivity].
  unfold router, getReq. cbn [reqMethod reqPath matchRoute].
  destruct rest as [|t [|? ?]]; rewrite ?Hid; cbn [negb andb]; try done.
  by destruct (isEmpty t).
Qed.

(** The theorem at the id of the stored record, and at the same id
    followed by a slash. *)
Lemma get_by_id_not_routed_witness :
  isEmpty sampleId = false /\
  router (up 2000 2) (getReq [ sampleId ]) oneItem
  = (oneItem, {| status := 404; sent := NoRoute |}) /\
  router (up 2000 2) (getReq [ sampleId; EmptyString ]) oneItem
  = (oneItem, {| status := 404; sent := NoRoute |}).
Proof.
  split; [reflexivity|]. split.
  - exact (proj1 (get_by_id_not_routed (up 2000 2) sampleId [] oneItem
                    eq_refl)).
  - exact (proj1 (get_by_id_not_routed (up 2000 2) sampleId [ EmptyString ]
                    oneItem eq_refl)).
Defined.

(** C1, as stated, fails: the record created from [laptop] is stored under
    the id [sampleId], and GET with that id is answered 404, not 200. *)
Lemma get_by_id_stored_record_404 :
  castObjectId sampleId = Some 1%N /\
  is_Some (oneItem !! 1%N) /\
  status (router (up 2000 2) (getReq [sampleId]) oneItem).2 = 404 /\
  status (router (up 2000 2) (getReq [sampleId]) oneItem).2 <> 200.
Proof.
  split; [evaluate|]. split.
  - rewrite oneItem_record. by eexists.
  - split; [evaluate | vm_compute; discriminate].
Qed.

(** *** C2: update of an id that does not exist *)




(** *** C3: storage failures *)

(** C3, on the code.  When the database does not answer, the list and the
    delete handlers answer 500, but the create and the update handlers
    answer 400, whatever the body. *)
Theorem storage_failure_status (e : env) (st : collection) :
  dbUp e = false ->
  (forall b, status (router e (postReq b) st).2 = 400) /\
  (forall id b, isEmpty id = false ->
     status (router e (putReq id b) st).2 = 400) /\
  status (router e (getReq []) st).2 = 500 /\
  (forall id, isEmpty id = false ->
     status (router e (deleteReq id) st).2 = 500).
Proof.
  intros Hdb. repeat split.
  - intros b. unfold router, postReq, withValidation.
    cbn [reqMethod reqPath reqBody matchRoute].
    destruct (validateItem b) as [r|b'] eqn:Hv.
    + apply validateItem_inl in Hv as [_ Hr]. exact Hr.
    + unfold postItem.
      destruct (save_down e (newDocument itemSchema e (pick pickedKeys b')) st Hdb)
        as [err ->]. done.
  - intros id b Hid. unfold router, putReq, withValidation.
    cbn [reqMethod reqPath reqBody]. rewrite (matchRoute_id id Hid).
    destruct (validateItem b) as [r|b'] eqn:Hv.
    + apply validateItem_inl in Hv as [_ Hr]. exact Hr.
    + unfold putItem.
      destruct (findByIdAndUpdate_down e id b' st Hdb) as [err ->]. done.
  - unfold router, getReq, getItems, findSorted.
    cbn [reqMethod reqPath matchRoute]. by rewrite Hdb.
  - intros id Hid. unfold router, deleteReq. cbn [reqMethod reqPath].
    rewrite (matchRoute_id id Hid). unfold deleteItem.
    destruct (findByIdAndDelete_down e id st Hdb) as [err ->]. done.
Qed.

(** The theorem with one record stored and the database down. *)
Lemma storage_failure_status_witness :
  dbUp (down 2000 2) = false /\
  router (down 2000 2)
    (postReq {[ "name" := VStr "Mouse"; "quantity" := VNum 50 ]}) oneItem
  = (oneItem, {| status := 400; sent := SentError StorageError |}) /\
  status (router (down 2000 2)
            (postReq {[ "name" := VStr "Mouse"; "quantity" := VNum 50 ]})
            oneItem).2 = 400 /\
  status (router (down 2000 2)
            (putReq sampleId {[ "name" := VStr "Mouse"; "quantity" := VNum 50 ]})
            oneItem).2 = 400.
Proof.
  destruct (storage_failure_status (down 2000 2) oneItem eq_refl)
    as (Hpost & Hput & _).
  split; [reflexivity|]. split; [evaluate|]. split.
  - apply Hpost.
  - apply Hput. reflexivity.
Defined.

(** *** C4: the location of a created record *)

(** C4, on the code.  The create handler forwards only [name], [quantity]
    and [description] to the model: whatever the body, the record that a
    POST creates and returns has no [location]. *)
Theorem post_drops_location (e : env) (b : body) (st st' : collection)
    (c : Z) (d : document) :
  router e (postReq b) st = (st', {| status := c; sent := SentItem d |}) ->
  d !! "location" = None /\ st' !! newId e = Some d.
Proof.
  intros H. apply router_sent_item in H as [_ [H|H]].
  - destruct H as (_ & _ & _ & _ & -> & ->).
    split; [|by rewrite lookup_insert_eq].
    rewrite lookup_created. rewrite !decide_False; [done|..].
    + by apply (bool_decide_unpack _).
    + done.
    + intros [|]; done.
    + done.
  - by destruct H as [[=] _].
Qed.

(** The theorem at the body of the spec's Scenario A. *)
Lemma post_drops_location_witness :
  exists d,
    laptop !! "location" = Some (VStr "Warehouse A") /\
    router (up 1000 1) (postReq laptop) ∅
    = (oneItem, {| status := 201; sent := SentItem d |}) /\
    d !! "name" = Some (BStr "Laptop") /\
    d !! "location" = None /\ oneItem !! 1%N = Some d.
Proof.
  eexists. split; [evaluate|].
  assert (Hrun : router (up 1000 1) (postReq laptop) ∅
                 = (oneItem, {| status := 201;
                                sent := SentItem (created (up 1000 1)
                                                    (sanitizedBody laptop)) |}))
    by evaluate.
  split; [exact Hrun|]. split; [evaluate|].
  exact (post_drops_location _ _ _ _ _ _ Hrun).
Defined.

(** *** C5: the bounds on the name *)

(** C5, on the code.  An update runs no schema validator: for a stored id,
    with the database answering, every body that passes [validateItem] is
    answered 200 and the record takes the sanitized name, whatever its
    length and even when it is empty after trimming. *)
Theorem put_skips_schema_validators (e : env) (id : string) (oid : N)
    (b b' : body) (old : document) (st : collection) :
  castObjectId id = Some oid -> st !! oid = Some old -> dbUp e = true ->
  validateItem b = inr b' -> plainUpdate b = true ->
  exists d,
    router e (putReq id b) st
    = (<[oid := d]> st, {| status := 200; sent := SentItem d |}) /\
    d !! "name" = Some (BStr (JS.escape (JS.trim (toString (b !! "name"))))).
Proof.
  intros Hid Hold Hdb Hv Hplain. apply validateItem_inr in Hv as [Hacc _].
  exists (updated e (sanitizedBody b) old).
  split; [|apply updated_name].
  unfold router, putReq. cbn [reqMethod reqPath reqBody].
  rewrite (matchRoute_id id (castObjectId_nonempty id oid Hid)).
  unfold withValidation. rewrite validateItem_eq, Hacc.
  rewrite (putItem_accepted e id oid b st Hid Hdb Hacc
             (plainUpdate_readable b Hplain)), Hold.
  assert (b !! "_id" = None) as Hnone.
  { destruct (b !! "_id") as [v|] eqn:Hv; [|done].
    by pose proof (proj1 (plainUpdate_lookup b) Hplain "_id" v Hv). }
  rewrite lookup_castSuccesses, lookup_castObject, lookup_plainFields.
  cbn [isOperator Ascii.eqb Bool.eqb]. rewrite lookup_hooked.
  rewrite decide_False by (intros [|[|[|]]]; discriminate).
  rewrite sanitizedBody_other by (by apply (bool_decide_unpack _)).
  by rewrite Hnone.
Qed.

(** The theorem at a name of 101 characters and at a blank name: both
    updates are answered 200 and stored. *)
Lemma put_skips_schema_validators_witness :
  let long : body :=
    {[ "name" := VStr (repeatChar "a" 101); "quantity" := VNum 1 ]} in
  let blank : body := {[ "name" := VStr "  "; "quantity" := VNum 1 ]} in
  castObjectId sampleId = Some 1%N /\ is_Some (oneItem !! 1%N) /\
  String.length (repeatChar "a" 101) = 101%nat /\
  (exists d,
     router (up 2000 2) (putReq sampleId long) oneItem
     = (<[1%N := d]> oneItem, {| status := 200; sent := SentItem d |}) /\
     d !! "name" = Some (BStr (repeatChar "a" 101))) /\
  (exists d,
     router (up 2000 2) (putReq sampleId blank) oneItem
     = (<[1%N := d]> oneItem, {| status := 200; sent := SentItem d |}) /\
     d !! "name" = Some (BStr EmptyString)).
Proof.
  intros long blank.
  split; [evaluate|]. split; [rewrite oneItem_record; by eexists|].
  split; [evaluate|]. split.
  - destruct (put_skips_schema_validators (up 2000 2) sampleId 1%N long
                (sanitizedBody long) (created (up 1000 1) (sanitizedBody laptop))
                oneItem) as (d & Hrun & Hname); [evaluate..|].
    exists d. split; [exact Hrun|]. rewrite Hname. evaluate.
  - destruct (put_skips_schema_validators (up 2000 2) sampleId 1%N blank
                (sanitizedBody blank) (created (up 1000 1) (sanitizedBody laptop))
                oneItem) as (d & Hrun & Hname); [evaluate..|].
    exists d. split; [exact Hrun|]. rewrite Hname. evaluate.
Defined.

(** The create path does run the schema validators: the same two bodies
    are answered 400 by POST and nothing is stored. *)
Example post_enforces_schema_validators :
  router (up 2000 2)
    (postReq {[ "name" := VStr (repeatChar "a" 101); "quantity" := VNum 1 ]})
    oneItem
  = (oneItem,
     {| status := 400; sent := SentError (ValidationError [ "name" ]) |}) /\
  router (up 2000 2)
    (postReq {[ "name" := VStr "  "; "quantity" := VNum 1 ]}) oneItem
  = (oneItem,
     {| status := 400; sent := SentError (ValidationError [ "name" ]) |}).
Proof. split; evaluate. Qed.

(** The update that the web client sends, with the record's own [_id] and
    [__v] and its timestamps, is answered 200: the timestamps of the body
    are not written, and [updatedAt] is the time of the request. *)
Example put_web_client_update :
  exists d,
    router (up 2000 2) (putReq sampleId webUpdate) oneItem
    = (<[1%N := d]> oneItem, {| status := 200; sent := SentItem d |}) /\
    d !! "quantity" = Some (BNum (Finite 12)) /\
    d !! "location" = Some (BStr "Warehouse B") /\
    d !! "_id" = Some (BObjectId 1) /\ d !! "__v" = Some (BNum (Finite 0)) /\
    d !! "createdAt" = Some (BDate 1000) /\
    d !! "updatedAt" = Some (BDate 2000).
Proof.
  exists (updated (up 2000 2) (sanitizedBody webUpdate)
            (created (up 1000 1) (sanitizedBody laptop))).
  repeat apply conj; evaluate.
Qed.

(** An update that would change the [_id] of the record is answered 400. *)
Example put_other_id_refused :
  router (up 2000 2)
    (putReq sampleId
       {[ "name" := VStr "Laptop"; "quantity" := VNum 12;
          "_id" := VStr otherId ]}) oneItem
  = (oneItem, {| status := 400; sent := SentError (ImmutableError "_id") |}).
Proof. evaluate. Qed.

(** *** C6: sku *)


(** Two creates that supply the same [sku] are both answered 201, and
    neither record has a [sku]. *)
Example sku_supplied_twice :
  let first :=
    router (up 1000 1)
      (postReq {[ "name" := VStr "A"; "quantity" := VNum 1;
                  "sku" := VStr "S1" ]}) ∅ in
  let second :=
    router (up 2000 2)
      (postReq {[ "name" := VStr "B"; "quantity" := VNum 2;
                  "sku" := VStr "S1" ]}) first.1 in
  status first.2 = 201 /\ status second.2 = 201 /\
  size second.1 = 2%nat /\
  (second.1 !! 1%N ≫= fun d => d !! "sku") = None /\
  (second.1 !! 2%N ≫= fun d => d !! "sku") = None.
Proof. repeat apply conj; evaluate. Qed.

(** On a collection that holds a record with a [sku], which no request
    can have written, a create with the same [sku] is answered 201 all the
    same: the handler compares nothing. *)
Example sku_not_compared :
  let foreign : collection :=
    {[ 7%N := {[ "_id" := BObjectId 7; "name" := BStr "A";
                 "quantity" := BNum (Finite 1); "sku" := BStr "S1" ]} ]} in
  status (router (up 2000 2)
            (postReq {[ "name" := VStr "B"; "quantity" := VNum 2;
                        "sku" := VStr "S1" ]}) foreign).2 = 201.
Proof. intros foreign. evaluate. Qed.

(** *** C7: creation *)

(** C7, as amended.  For a body whose name is a string that is non-empty
    and at most 100 characters long once trimmed and escaped, whose
    quantity is a number with an integer value 0 <= quantity < 2^53, and
    whose location and description are absent or strings, with the
    database answering and the generated id not in use, POST is answered
    201 with the stored record; its name is the trimmed and escaped input,
    its quantity the input, its id the generated one, both timestamps the
    time of the request and its version 0. *)
Theorem post_creates (e : env) (b : body) (s : string) (z : Z)
    (st : collection) :
  b !! "name" = Some (VStr s) ->
  b !! "quantity" = Some (VNum z) -> 0 <= z < 2 ^ 53 ->
  optionalString (b !! "location") = true ->
  optionalString (b !! "description") = true ->
  isEmpty (JS.escape (JS.trim s)) = false ->
  (String.length (JS.escape (JS.trim s)) <= 100)%nat ->
  dbUp e = true -> st !! newId e = None ->
  exists d,
    router e (postReq b) st
    = (<[newId e := d]> st, {| status := 201; sent := SentItem d |}) /\
    d !! "name" = Some (BStr (JS.escape (JS.trim s))) /\
    d !! "quantity" = Some (BNum (Finite z)) /\
    d !! "_id" = Some (BObjectId (newId e)) /\
    d !! "createdAt" = Some (BDate (now e)) /\
    d !! "updatedAt" = Some (BDate (now e)) /\
    d !! "__v" = Some (BNum (Finite 0)).
Proof.
  intros Hn Hq Hz Hl Hd Hs Hlen Hdb Hfresh.
  assert (accepted b = true) as Hacc.
  { unfold accepted. rewrite Hn, Hq, Hl, Hd. cbn [toString].
    rewrite (escape_trim_nonempty s Hs). unfold isInt.
    rewrite numericValue_numberToString by done.
    rewrite toDouble_sign. replace (0 <=? z) with true by lia. done. }
  assert (created e (sanitizedBody b) !! "name"
          = Some (BStr (JS.escape (JS.trim s)))) as Hname.
  { rewrite created_name, Hn. done. }
  assert (created e (sanitizedBody b) !! "quantity" = Some (BNum (Finite z)))
    as Hqty.
  { rewrite created_quantity_eq, sanitizedBody_quantity, Hq.
    cbn [mbind option_bind castNumber]. by rewrite toDouble_small. }
  exists (created e (sanitizedBody b)).
  split; [|repeat split; try done; by rewrite lookup_created].
  unfold router, postReq, withValidation.
  cbn [reqMethod reqPath reqBody matchRoute].
  rewrite validateItem_eq, Hacc. unfold postItem, save.
  set (item := newDocument itemSchema e (pick pickedKeys (sanitizedBody b))).
  assert (castErrors item = []) as -> by apply (castFailures_picked b Hacc).
  assert (docId item = newId e) as -> by done.
  fold (created e (sanitizedBody b)).
  rewrite (failedPaths_nil _ (JS.escape (JS.trim s)) (Finite z)); try done.
  - cbn [app]. rewrite Hdb, Hfresh. done.
  - rewrite <- Hname, lookup_created. unfold item.
    by rewrite lookup_draft, lookup_castItem, lookup_pick.
  - rewrite <- Hqty, lookup_created. unfold item.
    by rewrite lookup_draft, lookup_castItem, lookup_pick.
  - left. exists z. split; [done|lia].
Qed.

(** The theorem at the body of the spec's Scenario A. *)
Lemma post_creates_witness :
  laptop !! "name" = Some (VStr "Laptop") /\
  laptop !! "quantity" = Some (VNum 10) /\ 0 <= 10 < 2 ^ 53 /\
  (∅ : collection) !! newId (up 1000 1) = None /\
  exists d,
    router (up 1000 1) (postReq laptop) ∅
    = (<[1%N := d]> ∅, {| status := 201; sent := SentItem d |}) /\
    d !! "name" = Some (BStr "Laptop") /\
    d !! "quantity" = Some (BNum (Finite 10)) /\
    d !! "_id" = Some (BObjectId 1) /\
    d !! "createdAt" = Some (BDate 1000) /\
    d !! "updatedAt" = Some (BDate 1000) /\
    d !! "__v" = Some (BNum (Finite 0)).
Proof.
  assert (0 <= 10 < 2 ^ 53) as Hrange by (split; [lia | reflexivity]).
  split; [evaluate|]. split; [evaluate|]. split; [exact Hrange|].
  split; [evaluate|].
  apply (post_creates (up 1000 1) laptop "Laptop" 10 ∅);
    first [exact Hrange | evaluate | (vm_compute; lia)].
Defined.

(** C7, as stated, fails: the name ["a&b"] is a non-empty string and the
    quantity 1 a non-negative integer, and the record that POST returns has
    the name ["a&amp;b"], which is not the input. *)
Lemma post_name_not_verbatim :
  exists d,
    router (up 1000 1)
      (postReq {[ "name" := VStr "a&b"; "quantity" := VNum 1 ]}) ∅
    = (<[1%N := d]> ∅, {| status := 201; sent := SentItem d |}) /\
    d !! "name" = Some (BStr "a&amp;b") /\
    d !! "name" <> Some (BStr "a&b").
Proof.
  exists (created (up 1000 1)
            (sanitizedBody {[ "name" := VStr "a&b"; "quantity" := VNum 1 ]})).
  split; [evaluate|]. split; [evaluate|]. vm_compute. discriminate.
Qed.

(** Beyond 2^53 a quantity is the nearest double, not the integer of the
    body: 2^53 + 1 is stored as 2^53; and an integer that prints in
    scientific notation is refused: 10^21 - 1 is answered 400. *)
Example post_large_quantities :
  (exists d,
     router (up 1000 1)
       (postReq {[ "name" := VStr "A"; "quantity" := VNum 9007199254740993 ]}) ∅
     = (<[1%N := d]> ∅, {| status := 201; sent := SentItem d |}) /\
     d !! "quantity" = Some (BNum (Finite 9007199254740992))) /\
  status (router (up 1000 1)
            (postReq {[ "name" := VStr "A";
                        "quantity" := VNum 999999999999999999999 ]}) ∅).2
  = 400.
Proof.
  split; [|evaluate].
  exists (created (up 1000 1)
            (sanitizedBody
               {[ "name" := VStr "A"; "quantity" := VNum 9007199254740993 ]})).
  split; evaluate.
Qed.

(** *** C8: quantities *)






(** *** C9: escaping *)

(** C9.  Whenever a request is answered with a record, that record is
    stored, and it was written from the body that [validateItem] trimmed
    and HTML-escaped: its name is the trimmed and escaped name of the body,
    and so is its description when the body has one, and its location when
    the request is an update and the body has one; the body the middleware
    hands on holds the three fields in that form. *)
Theorem sanitized_before_persistence (e : env) (req : request)
    (st st' : collection) (c : Z) (d : document) :
  router e req st = (st', {| status := c; sent := SentItem d |}) ->
  (exists oid, st' !! oid = Some d) /\
  d !! "name"
    = Some (BStr (JS.escape (JS.trim (toString (reqBody req !! "name"))))) /\
  (forall s, reqBody req !! "description" = Some (VStr s) ->
     d !! "description" = Some (BStr (JS.escape (JS.trim s)))) /\
  (forall s, reqMethod req = PUT -> reqBody req !! "location" = Some (VStr s) ->
     d !! "location" = Some (BStr (JS.escape (JS.trim s)))) /\
  (exists b', validateItem (reqBody req) = inr b' /\
     b' !! "name"
       = Some (VStr (JS.escape (JS.trim (toString (reqBody req !! "name")))))
     /\
     forall k v, k = "location" \/ k = "description" ->
       reqBody req !! k = Some v ->
       exists s, v = VStr s /\ b' !! k = Some (VStr (JS.escape (JS.trim s)))).
Proof.
  intros H. apply router_sent_item in H as [Hacc H].
  assert (forall k s, k = "location" \/ k = "description" ->
            reqBody req !! k = Some (VStr s) ->
            sanitizedBody (reqBody req) !! k
            = Some (VStr (JS.escape (JS.trim s)))) as Hopt.
  { intros k s Hk Hv. by rewrite (sanitized_optional _ k (VStr s)). }
  split; [|split; [|split; [|split]]].
  - destruct H as [(_ & _ & _ & _ & -> & ->)
                  |(_ & _ & _ & oid & old & _ & -> & ->)];
      eexists; apply lookup_insert_eq.
  - destruct H as [(_ & _ & _ & _ & -> & _)
                  |(_ & _ & _ & oid & old & _ & -> & _)];
      [apply created_name | apply updated_name].
  - intros s Hs.
    destruct H as [(_ & _ & _ & _ & -> & _)
                  |(_ & _ & _ & oid & old & _ & -> & _)].
    + rewrite lookup_created. by rewrite (Hopt "description" s) by auto.
    + rewrite lookup_updated, lookup_updateOf.
      by rewrite (Hopt "description" s) by auto.
  - intros s Hput Hs.
    destruct H as [(Hm & _)|(_ & _ & _ & oid & old & _ & -> & _)];
      [congruence|].
    rewrite lookup_updated, lookup_updateOf.
    by rewrite (Hopt "location" s) by auto.
  - exists (sanitizedBody (reqBody req)). split; [|split].
    + by rewrite validateItem_eq, Hacc.
    + by rewrite lookup_sanitizedBody.
    + intros k v Hk Hv.
      pose proof (accepted_optional _ k Hacc Hk) as Hstr. rewrite Hv in Hstr.
      destruct v as [| | |s]; try discriminate. exists s. split; [done|].
      by apply Hopt.
Qed.

(** The theorem at an update whose three strings need escaping. *)
Lemma sanitized_before_persistence_witness :
  let b : body :=
    {[ "name" := VStr " a&b "; "quantity" := VNum 1;
       "location" := VStr "<L>"; "description" := VStr "it's" ]} in
  exists d,
    router (up 2000 2) (putReq sampleId b) oneItem
    = (<[1%N := d]> oneItem, {| status := 200; sent := SentItem d |}) /\
    d !! "name" = Some (BStr "a&amp;b") /\
    d !! "description" = Some (BStr "it&#x27;s") /\
    d !! "location" = Some (BStr "&lt;L&gt;").
Proof.
  intros b.
  exists (updated (up 2000 2) (sanitizedBody b)
            (created (up 1000 1) (sanitizedBody laptop))).
  assert (Hrun :
    router (up 2000 2) (putReq sampleId b) oneItem
    = (<[1%N := updated (up 2000 2) (sanitizedBody b)
                   (created (up 1000 1) (sanitizedBody laptop))]> oneItem,
       {| status := 200;
          sent := SentItem (updated (up 2000 2) (sanitizedBody b)
                              (created (up 1000 1) (sanitizedBody laptop))) |}))
    by evaluate.
  destruct (sanitized_before_persistence _ _ _ _ _ _ Hrun)
    as (_ & Hname & Hdesc & Hloc & _).
  split; [exact Hrun|]. split; [rewrite Hname; evaluate|]. split.
  - apply (Hdesc "it's"). evaluate.
  - apply (Hloc "<L>"); evaluate.
Defined.

(** *** C10: fields outside the schema *)



(** A create and an update with the keys [sku] and [category] added. *)
Example extra_fields_sample :
  let b : body := {[ "name" := VStr "Mouse"; "quantity" := VNum 50 ]} in
  let b' : body := <["category" := VStr "Electronics"]> (<["sku" := VStr "M1"]> b) in
  router (up 2000 2) (postReq b') oneItem = router (up 2000 2) (postReq b) oneItem /\
  status (router (up 2000 2) (postReq b') oneItem).2 = 201 /\
  router (up 2000 2) (putReq sampleId b') oneItem
  = router (up 2000 2) (putReq sampleId b) oneItem /\
  status (router (up 2000 2) (putReq sampleId b') oneItem).2 = 200.
Proof. repeat apply conj; evaluate. Qed.
